(** * sux_lock: the recursive S/U/X latch of storage/innobase/include/sux_lock.h

    A shallow embedding of [template<typename srw> class sux_lock] and of the
    [sux_lock<srw_lock_low>] specialisations of its blocking and non-blocking
    entry points, followed by the properties of the recursion encoding, of
    the ownership field and of the acquire / release / upgrade protocol.

    The class is sequential code wrapped around an external lock: a member
    function is embedded as a state transformer over the fields of the
    object, the calling thread ([os_thread_get_curr_id()]) is an explicit
    argument, and the underlying lock is an interface ([srw.ops]) whose
    blocking and non-blocking calls return the boolean the code tests.
    Debug assertions are part of the embedding: a computation stops when one
    fails in a debug build.

    Left out: construction and destruction ([SRW_LOCK_INIT], [init], [free],
    [operator=]), [is_waiting], [not_recursive], [have_any], and the
    [sux_lock<srw_lock>] specialisations, which pass a source location to
    the underlying lock and are otherwise the bodies embedded here. *)

From Stdlib Require Import ZArith Lia Bool List.
From stdpp Require Import base option gmap.
Import ListNotations.

Local Open Scope Z_scope.

(** ** The underlying non-recursive lock

    [srw_lock.h] is not part of the sources at hand; [sux_lock] is a template
    over it.  The interface lists the member functions that [sux_lock.h]
    invokes on [lock], with the result types it uses them at: every
    acquisition returns a [bool] that the caller tests, a release returns
    nothing. *)
Module srw.

Class ops (T : Type) : Type := {
  rd_lock      : T -> bool * T;   (* lock.template rd_lock<true>() *)
  u_lock       : T -> bool * T;   (* lock.u_lock() *)
  wr_lock      : T -> bool * T;   (* lock.template wr_lock<true>() *)
  u_wr_upgrade : T -> bool * T;   (* lock.u_wr_upgrade() *)
  rd_lock_try  : T -> bool * T;   (* lock.rd_lock_try() *)
  u_lock_try   : T -> bool * T;   (* lock.u_lock_try() *)
  wr_lock_try  : T -> bool * T;   (* lock.wr_lock_try() *)
  rd_unlock    : T -> T;          (* lock.rd_unlock() *)
  u_unlock     : T -> T;          (* lock.u_unlock() *)
  wr_unlock    : T -> T;          (* lock.wr_unlock() *)
}.

(** The calls that can reach the underlying lock. *)
Inductive verb : Type :=
| Rd_lock | U_lock | Wr_lock | U_wr_upgrade
| Rd_lock_try | U_lock_try | Wr_lock_try
| Rd_unlock | U_unlock | Wr_unlock.

(** A recording lock: its state is the list of calls it has received,
    oldest first, and [answer] fixes the boolean each acquisition returns
    as a function of the calls received so far (the last one included).
    Every finite run of any underlying lock is of this form. *)
Definition recorder := list verb.

Definition asked (answer : list verb -> bool) (c : verb) (h : recorder)
  : bool * recorder :=
  (answer (h ++ [c]), h ++ [c]).

Definition told (c : verb) (h : recorder) : recorder := h ++ [c].

Definition recording (answer : list verb -> bool) : ops recorder := {|
  rd_lock      := asked answer Rd_lock;
  u_lock       := asked answer U_lock;
  wr_lock      := asked answer Wr_lock;
  u_wr_upgrade := asked answer U_wr_upgrade;
  rd_lock_try  := asked answer Rd_lock_try;
  u_lock_try   := asked answer U_lock_try;
  wr_lock_try  := asked answer Wr_lock_try;
  rd_unlock    := told Rd_unlock;
  u_unlock     := told U_unlock;
  wr_unlock    := told Wr_unlock;
|}.

End srw.

(** ** Thread identifiers and the packed recursion counter *)

(** [os_thread_id_t] ([os0thread.h], Linux: [pthread_t], an unsigned long).
    0 is "no owner". *)
Definition os_thread_id_t : Type := Z.

(** [static constexpr os_thread_id_t FOR_IO= os_thread_id_t(~0UL)] *)
Definition FOR_IO : os_thread_id_t := Z.ones 64.

(** Arithmetic on [uint32_t] wraps modulo 2^32. *)
Definition uint32_t (z : Z) : Z := z mod 2 ^ 32.

(** [static constexpr uint32_t RECURSIVE_X= 1U] *)
Definition RECURSIVE_X : Z := 1.
(** [static constexpr uint32_t RECURSIVE_U= 1U << 16] *)
Definition RECURSIVE_U : Z := Z.shiftl 1 16.
(** [static constexpr uint32_t RECURSIVE_MAX= RECURSIVE_U - 1] *)
Definition RECURSIVE_MAX : Z := RECURSIVE_U - 1.

(** An integer used as a condition: true iff nonzero. *)
Definition to_bool (z : Z) : bool := negb (z =? 0).

(** [allow_readers ? RECURSIVE_U : RECURSIVE_X] *)
Definition multiplier (allow_readers : bool) : Z :=
  if allow_readers then RECURSIVE_U else RECURSIVE_X.

(** [(recursive / (allow_readers ? RECURSIVE_U : RECURSIVE_X)) & RECURSIVE_MAX],
    the [rec] of [writer_recurse] and of [u_or_x_unlock]. *)
Definition rec (allow_readers : bool) (recursive : Z) : Z :=
  Z.land (recursive / multiplier allow_readers) RECURSIVE_MAX.

(** The two sub-counters in the words of the specification. *)
Definition x_depth (recursive : Z) : Z := recursive mod 2 ^ 16.
Definition u_depth (recursive : Z) : Z := recursive / 2 ^ 16.

(** ** The lock object *)

Record sux_lock (T : Type) : Type := Sux_lock {
  lock      : T;                              (* srw lock *)
  writer    : os_thread_id_t;                 (* std::atomic<os_thread_id_t> *)
  recursive : Z;                              (* uint32_t *)
  waits     : Z;                              (* std::atomic<uint32_t> *)
  readers   : option (gset os_thread_id_t);   (* UNIV_DEBUG; None is nullptr *)
}.
Arguments Sux_lock {T}.
Arguments lock {T}.
Arguments writer {T}.
Arguments recursive {T}.
Arguments waits {T}.
Arguments readers {T}.

Definition set_lock {T} (x : T) (l : sux_lock T) : sux_lock T :=
  Sux_lock x (writer l) (recursive l) (waits l) (readers l).
Definition set_writer {T} (x : os_thread_id_t) (l : sux_lock T) : sux_lock T :=
  Sux_lock (lock l) x (recursive l) (waits l) (readers l).
Definition set_recursive {T} (x : Z) (l : sux_lock T) : sux_lock T :=
  Sux_lock (lock l) (writer l) x (waits l) (readers l).
Definition set_waits {T} (x : Z) (l : sux_lock T) : sux_lock T :=
  Sux_lock (lock l) (writer l) (recursive l) x (readers l).
Definition set_readers {T} (x : option (gset os_thread_id_t)) (l : sux_lock T)
  : sux_lock T :=
  Sux_lock (lock l) (writer l) (recursive l) (waits l) x.

(** The all-zero object a [sux_lock] is constructed as. *)
Definition Free {T} (l : sux_lock T) : Prop :=
  recursive l = 0 /\ writer l = 0.

(** The ranges of the two [uint32_t] fields. *)
Definition well_typed {T} (l : sux_lock T) : Prop :=
  0 <= recursive l < 2 ^ 32 /\ 0 <= waits l < 2 ^ 32.

(** [recursive > 0] iff [writer != 0]. *)
Definition owned_iff_recursive {T} (l : sux_lock T) : Prop :=
  recursive l > 0 <-> writer l <> 0.

(** ** Member functions

    A member function is a computation on the object that either returns a
    value and the new object, or stops at a failed debug assertion.  The
    build is a parameter: [UNIV_DEBUG = true] is the debug build, in which
    [ut_ad], [ut_d] and [DBUG_ASSERT] are compiled in and a false assertion
    aborts the process; [UNIV_DEBUG = false] is the release build, in which
    they expand to nothing. *)

Definition M (T A : Type) : Type := sux_lock T -> option (A * sux_lock T).

Definition ret {T A} (a : A) : M T A := fun l => Some (a, l).
Definition bind {T A B} (m : M T A) (k : A -> M T B) : M T B :=
  fun l => match m l with
           | Some (a, l') => k a l'
           | None => None
           end.
Definition get {T A} (f : sux_lock T -> A) : M T A := fun l => Some (f l, l).
Definition modify {T} (f : sux_lock T -> sux_lock T) : M T unit :=
  fun l => Some (tt, f l).
Definition abort {T A} : M T A := fun _ => None.

Declare Scope sux_scope.
Delimit Scope sux_scope with sux.
Notation "x <- m ;; k" := (bind m (fun x => k))
  (at level 100, m at level 99, k at level 200, right associativity,
   format "'[v' x  <-  m  ;; '/' k ']'") : sux_scope.
Notation "m ;; k" := (bind m (fun _ => k))
  (at level 100, k at level 200, right associativity,
   format "'[v' m  ;; '/' k ']'") : sux_scope.
Local Open Scope sux_scope.

Section sux_lock.

Context {T : Type} {srw_ops : srw.ops T}.

(** Whether [ut_ad], [ut_d] and [DBUG_ASSERT] are compiled in. *)
Variable UNIV_DEBUG : bool.

(** Modelled from the spec: [ut_ad(EXPR)] (ut0dbg.h, absent) is a debug
    assertion, checked only in debug builds, that aborts the process when
    [EXPR] is false.  [EXPR] is evaluated in debug builds only; it may
    itself call a member function that asserts. *)
Definition ut_ad (EXPR : M T bool) : M T unit :=
  if UNIV_DEBUG
  then b <- EXPR ;;
       if b : bool then ret tt else abort
  else ret tt.

(** Modelled from the spec: [DBUG_ASSERT(EXPR)] (my_dbug.h, absent) is the
    assertion of the server's debug build, which is the build that defines
    [UNIV_DEBUG]. *)
Definition DBUG_ASSERT (EXPR : M T bool) : M T unit :=
  if UNIV_DEBUG
  then b <- EXPR ;;
       if b : bool then ret tt else abort
  else ret tt.

(** Modelled from the spec: [IF_DBUG(A, B)] (my_dbug.h, absent) is [A] in
    debug builds and [B] otherwise. *)
Definition IF_DBUG {A : Type} (a b : M T A) : M T A :=
  if UNIV_DEBUG then a else b.

(** Modelled from the spec: [ut_d(EXPR)] (univ.i, absent) is [EXPR] in
    debug builds and nothing otherwise. *)
Definition ut_d (EXPR : M T unit) : M T unit :=
  if UNIV_DEBUG then EXPR else ret tt.

(** [lock.f()] for an acquisition [f] of the underlying lock. *)
Definition lock_call (f : T -> bool * T) : M T bool :=
  fun l => let '(b, x) := f (lock l) in Some (b, set_lock x l).
(** [lock.f()] for a release [f] of the underlying lock. *)
Definition lock_release (f : T -> T) : M T unit :=
  modify (fun l => set_lock (f (lock l)) l).

(** [waits.fetch_add(1, std::memory_order_relaxed)] *)
Definition waits_fetch_add : M T unit :=
  modify (fun l => set_waits (uint32_t (waits l + 1)) l).

(** [uint32_t waited() const] *)
Definition waited : M T Z := get waits.
(** [void reset_waited()] *)
Definition reset_waited : M T unit := modify (set_waits 0).

(** [template<bool allow_readers> void writer_recurse()] *)
Definition writer_recurse (allow_readers : bool) (id : os_thread_id_t)
  : M T unit :=
  ut_ad (get (fun l => writer l =? id)) ;;
  ut_ad (get (fun l => to_bool (if allow_readers
                                then recursive l
                                else rec allow_readers (recursive l)))) ;;
  ut_ad (get (fun l => rec allow_readers (recursive l) <? RECURSIVE_MAX)) ;;
  modify (fun l =>
    set_recursive (uint32_t (recursive l + multiplier allow_readers)) l).

(** [writer.exchange(id, std::memory_order_relaxed)] *)
Definition writer_exchange (id : os_thread_id_t) : M T os_thread_id_t :=
  old <- get writer ;;
  modify (set_writer id) ;;
  ret old.

(** [writer.store(id, std::memory_order_relaxed)] *)
Definition writer_store (id : os_thread_id_t) : M T unit :=
  modify (set_writer id).

(** [void set_new_owner(os_thread_id_t id)] *)
Definition set_new_owner (id : os_thread_id_t) : M T unit :=
  IF_DBUG (DBUG_ASSERT (old <- writer_exchange id ;; ret (to_bool old)))
          (writer_store id).

(** [void set_first_owner(os_thread_id_t id)] *)
Definition set_first_owner (id : os_thread_id_t) : M T unit :=
  IF_DBUG (DBUG_ASSERT (old <- writer_exchange id ;; ret (negb (to_bool old))))
          (writer_store id).

(** [r->emplace(id).second] on the reader set [r]: insert, and tell whether
    [id] was new. *)
Definition readers_emplace (id : os_thread_id_t) : M T bool :=
  r0 <- get readers ;;
  match r0 with
  | Some r =>
      modify (set_readers (Some ({[ id ]} ∪ r))) ;;
      ret (negb (bool_decide (id ∈ r)))
  | None => abort
  end.

(** [r->erase(id)] on the reader set [r]: remove, and count the removed. *)
Definition readers_erase (id : os_thread_id_t) : M T Z :=
  r0 <- get readers ;;
  match r0 with
  | Some r =>
      modify (set_readers (Some (r ∖ {[ id ]}))) ;;
      ret (if bool_decide (id ∈ r) then 1 else 0)
  | None => abort
  end.

(** [void s_lock_register()] (UNIV_DEBUG); [readers_lock] is held for the
    duration of the body only. *)
Definition s_lock_register (id : os_thread_id_t) : M T unit :=
  r <- get readers ;;
  (if r is None                      (* if (!r) r= new std::set<>() *)
   then modify (set_readers (Some ∅))
   else ret tt) ;;
  ut_ad (readers_emplace id).

(** [void claim_ownership()] *)
Definition claim_ownership (id : os_thread_id_t) : M T unit :=
  set_new_owner id.

(** [bool have_u_or_x() const] *)
Definition have_u_or_x (id : os_thread_id_t) : M T bool :=
  w <- get writer ;;
  if negb (id =? w) then ret false
  else ut_ad (get (fun l => to_bool (recursive l))) ;;
       ret true.

(** [bool have_u_not_x() const] *)
Definition have_u_not_x (id : os_thread_id_t) : M T bool :=
  h <- have_u_or_x id ;;
  if h
  then get (fun l =>
         negb (to_bool (Z.land (recursive l / RECURSIVE_X) RECURSIVE_MAX)))
  else ret false.

(** [bool have_x() const] *)
Definition have_x (id : os_thread_id_t) : M T bool :=
  h <- have_u_or_x id ;;
  if h
  then get (fun l =>
         to_bool (Z.land (recursive l / RECURSIVE_X) RECURSIVE_MAX))
  else ret false.

(** [bool have_s() const] (UNIV_DEBUG) *)
Definition have_s (id : os_thread_id_t) : M T bool :=
  r <- get readers ;;
  match r with
  | Some r => ret (bool_decide (id ∈ r))
  | None => ret false
  end.

(** [if (!b) waits.fetch_add(1, std::memory_order_relaxed)] for the
    result [b] of a blocking call of the underlying lock. *)
Definition count_wait (b : bool) : M T unit :=
  if negb b then waits_fetch_add else ret tt.

(** [void s_lock()] *)
Definition s_lock (id : os_thread_id_t) : M T unit :=
  ut_ad (h <- have_x id ;; ret (negb h)) ;;
  ut_ad (h <- have_s id ;; ret (negb h)) ;;
  b <- lock_call srw.rd_lock ;;
  count_wait b ;;
  ut_d (s_lock_register id).

(** [void u_lock()] *)
Definition u_lock (id : os_thread_id_t) : M T unit :=
  w <- get writer ;;
  if w =? id
  then writer_recurse true id
  else b <- lock_call srw.u_lock ;;
       count_wait b ;;
       ut_ad (get (fun l => negb (to_bool (recursive l)))) ;;
       modify (set_recursive RECURSIVE_U) ;;
       set_first_owner id.

(** [void x_lock(bool for_io= false)] *)
Definition x_lock (for_io : bool) (id : os_thread_id_t) : M T unit :=
  w <- get writer ;;
  if w =? id
  then ut_ad (ret (negb for_io)) ;;
       writer_recurse false id
  else b <- lock_call srw.wr_lock ;;
       count_wait b ;;
       ut_ad (get (fun l => negb (to_bool (recursive l)))) ;;
       modify (set_recursive RECURSIVE_X) ;;
       set_first_owner (if for_io then FOR_IO else id).

(** [void x_lock_recursive()] *)
Definition x_lock_recursive (id : os_thread_id_t) : M T unit :=
  writer_recurse false id.

(** [void u_x_upgrade()] *)
Definition u_x_upgrade (id : os_thread_id_t) : M T unit :=
  ut_ad (have_u_not_x id) ;;
  b <- lock_call srw.u_wr_upgrade ;;
  count_wait b ;;
  modify (fun l => set_recursive (recursive l / RECURSIVE_U) l).

(** [bool x_lock_upgraded()] *)
Definition x_lock_upgraded (id : os_thread_id_t) : M T bool :=
  w <- get writer ;;
  if w =? id
  then ut_ad (get (fun l => to_bool (recursive l))) ;;
       r <- get recursive ;;
       if to_bool (Z.land r RECURSIVE_MAX)
       then writer_recurse false id ;;
            ret false
       else (* Upgrade the lock. *)
            lock_call srw.u_wr_upgrade ;;
            modify (fun l => set_recursive (recursive l / RECURSIVE_U) l) ;;
            ret true
  else lock_call srw.wr_lock ;;
       ut_ad (get (fun l => negb (to_bool (recursive l)))) ;;
       modify (set_recursive RECURSIVE_X) ;;
       set_first_owner id ;;
       ret false.

(** [bool s_lock_try()] *)
Definition s_lock_try (id : os_thread_id_t) : M T bool :=
  acquired <- lock_call srw.rd_lock_try ;;
  ut_d (if acquired : bool then s_lock_register id else ret tt) ;;
  ret acquired.

(** [bool u_lock_try(bool for_io)] *)
Definition u_lock_try (for_io : bool) (id : os_thread_id_t) : M T bool :=
  w <- get writer ;;
  if w =? id
  then if for_io
       then ret false
       else writer_recurse true id ;;
            ret true
  else acquired <- lock_call srw.u_lock_try ;;
       if acquired : bool
       then ut_ad (get (fun l => negb (to_bool (recursive l)))) ;;
            modify (set_recursive RECURSIVE_U) ;;
            set_first_owner (if for_io then FOR_IO else id) ;;
            ret true
       else ret false.

(** [bool x_lock_try()] *)
Definition x_lock_try (id : os_thread_id_t) : M T bool :=
  w <- get writer ;;
  if w =? id
  then writer_recurse false id ;;
       ret true
  else acquired <- lock_call srw.wr_lock_try ;;
       if acquired : bool
       then ut_ad (get (fun l => negb (to_bool (recursive l)))) ;;
            modify (set_recursive RECURSIVE_X) ;;
            set_first_owner id ;;
            ret true
       else ret false.

(** [void s_unlock()]; the first three lines are under [#ifdef UNIV_DEBUG]. *)
Definition s_unlock (id : os_thread_id_t) : M T unit :=
  ut_d (ut_ad (r <- get readers ;; ret (bool_decide (is_Some r))) ;;
        ut_ad (n <- readers_erase id ;; ret (n =? 1))) ;;
  lock_release srw.rd_unlock.

(** [void u_or_x_unlock(bool allow_readers, bool claim_ownership= false)] *)
Definition u_or_x_unlock (allow_readers claim_ownership : bool)
    (id : os_thread_id_t) : M T unit :=
  ut_ad (get (fun l =>
    (writer l =? id)
    || ((writer l =? FOR_IO) && claim_ownership
        && (recursive l =? multiplier allow_readers)))) ;;
  ut_ad (get (fun l => to_bool (rec allow_readers (recursive l)))) ;;
  modify (fun l =>
    set_recursive (uint32_t (recursive l - multiplier allow_readers)) l) ;;
  r <- get recursive ;;
  if negb (to_bool r)
  then set_new_owner 0 ;;
       if allow_readers
       then lock_release srw.u_unlock
       else lock_release srw.wr_unlock
  else ret tt.

(** [void u_unlock(bool claim_ownership= false)] *)
Definition u_unlock (claim_ownership : bool) (id : os_thread_id_t)
  : M T unit :=
  u_or_x_unlock true claim_ownership id.

(** [void x_unlock(bool claim_ownership= false)] *)
Definition x_unlock (claim_ownership : bool) (id : os_thread_id_t)
  : M T unit :=
  u_or_x_unlock false claim_ownership id.

End sux_lock.

Arguments ut_ad {T} UNIV_DEBUG EXPR.
Arguments ut_d {T} UNIV_DEBUG EXPR.

(** ** The public interface as data *)

(** The lock, try-lock, upgrade and unlock entry points, and
    [claim_ownership]. *)
Inductive entry_point : Type :=
| S_lock
| U_lock
| X_lock (for_io : bool)
| X_lock_recursive
| U_x_upgrade
| X_lock_upgraded
| S_lock_try
| U_lock_try (for_io : bool)
| X_lock_try
| S_unlock
| U_unlock (claim_ownership : bool)
| X_unlock (claim_ownership : bool)
| Claim_ownership.

(** A [void] member function returns no boolean. *)
Definition void {T} (m : M T unit) : M T (option bool) := m ;; ret None.
Definition returning {T} (m : M T bool) : M T (option bool) :=
  b <- m ;; ret (Some b).

(** The call of an entry point by thread [id]. *)
Definition call {T} `{srw.ops T} (UNIV_DEBUG : bool) (e : entry_point)
    (id : os_thread_id_t) : M T (option bool) :=
  match e with
  | S_lock => void (s_lock UNIV_DEBUG id)
  | U_lock => void (u_lock UNIV_DEBUG id)
  | X_lock for_io => void (x_lock UNIV_DEBUG for_io id)
  | X_lock_recursive => void (x_lock_recursive UNIV_DEBUG id)
  | U_x_upgrade => void (u_x_upgrade UNIV_DEBUG id)
  | X_lock_upgraded => returning (x_lock_upgraded UNIV_DEBUG id)
  | S_lock_try => returning (s_lock_try UNIV_DEBUG id)
  | U_lock_try for_io => returning (u_lock_try UNIV_DEBUG for_io id)
  | X_lock_try => returning (x_lock_try UNIV_DEBUG id)
  | S_unlock => void (s_unlock UNIV_DEBUG id)
  | U_unlock claim => void (u_unlock UNIV_DEBUG claim id)
  | X_unlock claim => void (x_unlock UNIV_DEBUG claim id)
  | Claim_ownership => void (claim_ownership UNIV_DEBUG id)
  end.

(** [m] run [n] times in a row. *)
Fixpoint times {T} (n : nat) (m : M T unit) : M T unit :=
  match n with
  | O => ret tt
  | S n => m ;; times n m
  end.

(** A newly constructed lock over the recording underlying lock. *)
Definition fresh : sux_lock srw.recorder := Sux_lock [] 0 0 0 None.

(** A call respects its contract when it passes the assertions of the
    debug build, for some contents of the debug reader set (which exists in
    debug builds only). *)
Definition respects_contract {T} `{srw.ops T} (e : entry_point)
    (id : os_thread_id_t) (l : sux_lock T) : Prop :=
  exists rs : option (gset os_thread_id_t),
    call true e id (set_readers rs l) <> None.

(** The objects that can be observed between two calls: those that calls
    of the entry points, by threads whose identifiers are not 0, lead to
    from a newly constructed object when every call respects its contract
    and returns. *)
Inductive reachable {T} `{srw.ops T} (UNIV_DEBUG : bool)
  : sux_lock T -> Prop :=
| reachable_new (l : sux_lock T) :
    Free l -> waits l = 0 -> reachable UNIV_DEBUG l
| reachable_call (l l' : sux_lock T) (e : entry_point) (id : os_thread_id_t)
    (r : option bool) :
    reachable UNIV_DEBUG l ->
    id <> 0 ->
    respects_contract e id l ->
    call UNIV_DEBUG e id l = Some (r, l') ->
    reachable UNIV_DEBUG l'.




(** ** Outcomes and asserted conditions

    The objects the member functions return, and the conditions their debug
    assertions check, as functions of the object they are called on. *)

(** The depth of one mode in the words of the specification. *)
Definition depth (allow_readers : bool) (r : Z) : Z :=
  if allow_readers then u_depth r else x_depth r.

Section outcomes.

Context {T : Type} {srw_ops : srw.ops T}.

(** The assertions of [writer_recurse]. *)
Definition writer_recurse_asserted (allow_readers : bool)
    (id : os_thread_id_t) (l : sux_lock T) : bool :=
  (writer l =? id)
  && to_bool (if allow_readers then recursive l
              else rec allow_readers (recursive l))
  && (rec allow_readers (recursive l) <? RECURSIVE_MAX).

(** The object after a first acquisition through the underlying call [f]
    that counts blocking waits. *)
Definition acquired (f : T -> bool * T) (recursive' : Z)
    (owner : os_thread_id_t) (l : sux_lock T) : sux_lock T :=
  Sux_lock (snd (f (lock l))) owner recursive'
           (if fst (f (lock l)) then waits l else uint32_t (waits l + 1))
           (readers l).

(** The assertions [ut_ad(!recursive)] and, in [set_first_owner],
    [DBUG_ASSERT(!writer.exchange(id))]. *)
Definition unowned (l : sux_lock T) : bool :=
  negb (to_bool (recursive l)) && (writer l =? 0).

(** The assertion [ut_ad(have_u_not_x())] of [u_x_upgrade]. *)
Definition u_x_upgrade_asserted (id : os_thread_id_t) (l : sux_lock T)
  : bool :=
  (id =? writer l) && to_bool (recursive l)
  && negb (to_bool (rec false (recursive l))).

(** The two assertions of [u_or_x_unlock]. *)
Definition u_or_x_unlock_asserted (allow_readers claim_ownership : bool)
    (id : os_thread_id_t) (l : sux_lock T) : bool :=
  ((writer l =? id)
   || ((writer l =? FOR_IO) && claim_ownership
       && (recursive l =? multiplier allow_readers)))
  && to_bool (rec allow_readers (recursive l)).

(** [allow_readers ? lock.u_unlock() : lock.wr_unlock()] *)
Definition release (allow_readers : bool) : T -> T :=
  if allow_readers then srw.u_unlock else srw.wr_unlock.

(** Whether [id] is in the debug reader set: the value of [have_s()]. *)
Definition holds_s (id : os_thread_id_t) (l : sux_lock T) : bool :=
  match readers l with
  | Some r => bool_decide (id ∈ r)
  | None => false
  end.

(** The object after [s_lock_register()]. *)
Definition registered (id : os_thread_id_t) (l : sux_lock T) : sux_lock T :=
  set_readers
    (Some ({[ id ]} ∪ match readers l with Some r => r | None => ∅ end)) l.

(** The assertions [ut_ad(!have_x())] and [ut_ad(!have_s())] of [s_lock]. *)
Definition s_lock_asserted (id : os_thread_id_t) (l : sux_lock T) : bool :=
  (if id =? writer l
   then to_bool (recursive l) && negb (to_bool (rec false (recursive l)))
   else true)
  && negb (holds_s id l).

End outcomes.

(** ** Life cycle and debug probes

    The remaining member functions of the class.  [lock.SRW_LOCK_INIT(key)]
    / [lock.init()] and [lock.destroy()] belong to the underlying lock and
    are not called anywhere else; they are arguments here. *)

Section life_cycle.

Context {T : Type} {srw_ops : srw.ops T}.
Variable UNIV_DEBUG : bool.

(** [void SRW_LOCK_INIT(mysql_pfs_key_t key)] and, for [srw_lock_low],
    [void init()]; [readers_lock.init()] concerns the mutex of the reader
    set only. *)
Definition init (lock_init : T -> T) : M T unit :=
  lock_release lock_init ;;
  ut_ad UNIV_DEBUG (get (fun l => negb (to_bool (writer l)))) ;;
  ut_ad UNIV_DEBUG (get (fun l => negb (to_bool (recursive l)))) ;;
  ut_ad UNIV_DEBUG (get (fun l => negb (to_bool (waits l)))) ;;
  ut_ad UNIV_DEBUG (get (fun l => negb (bool_decide (is_Some (readers l))))).

(** [void free()] *)
Definition free (lock_destroy : T -> T) : M T unit :=
  ut_ad UNIV_DEBUG (get (fun l => negb (to_bool (writer l)))) ;;
  ut_ad UNIV_DEBUG (get (fun l => negb (to_bool (recursive l)))) ;;
  ut_d UNIV_DEBUG
    (r0 <- get readers ;;
     match r0 with
     | Some r =>
         ut_ad UNIV_DEBUG (ret (bool_decide (r = ∅))) ;;     (* r->empty() *)
         modify (set_readers None)                 (* delete r; store(nullptr) *)
     | None => ret tt
     end) ;;
  lock_release lock_destroy.

(** [bool not_recursive() const] (UNIV_DEBUG) *)
Definition not_recursive : M T bool :=
  ut_ad UNIV_DEBUG (get (fun l => to_bool (recursive l))) ;;
  get (fun l => (recursive l =? RECURSIVE_X) || (recursive l =? RECURSIVE_U)).

(** [bool have_any() const] (UNIV_DEBUG) *)
Definition have_any (id : os_thread_id_t) : M T bool :=
  h <- have_u_or_x UNIV_DEBUG id ;;
  if h : bool then ret true else have_s id.

End life_cycle.

(** The calls an entry point can make to the underlying lock. *)
Definition verbs (e : entry_point) : list srw.verb :=
  match e with
  | S_lock => [srw.Rd_lock]
  | U_lock => [srw.U_lock]
  | X_lock _ => [srw.Wr_lock]
  | X_lock_recursive => []
  | U_x_upgrade => [srw.U_wr_upgrade]
  | X_lock_upgraded => [srw.U_wr_upgrade; srw.Wr_lock]
  | S_lock_try => [srw.Rd_lock_try]
  | U_lock_try _ => [srw.U_lock_try]
  | X_lock_try => [srw.Wr_lock_try]
  | S_unlock => [srw.Rd_unlock]
  | U_unlock _ => [srw.U_unlock]
  | X_unlock _ => [srw.Wr_unlock]
  | Claim_ownership => []
  end.

(** The entry points of the shared mode. *)
Definition shared_mode (e : entry_point) : bool :=
  match e with
  | S_lock | S_lock_try | S_unlock => true
  | _ => false
  end.

(** ** The recursion encoding *)

Lemma RECURSIVE_U_eq : RECURSIVE_U = 65536.
Proof. reflexivity. Qed.

Lemma RECURSIVE_MAX_eq : RECURSIVE_MAX = 65535.
Proof. reflexivity. Qed.

(** The mask [& RECURSIVE_MAX] keeps the low 16 bits. *)
Lemma land_RECURSIVE_MAX (z : Z) : Z.land z RECURSIVE_MAX = z mod 2 ^ 16.
Proof.
  change RECURSIVE_MAX with (Z.ones 16).
  apply Z.land_ones. lia.
Qed.

(** Linear arithmetic with division and remainder by constants. *)
Ltac dlia := Z.div_mod_to_equations; lia.

Lemma rec_X (r : Z) : rec false r = x_depth r.
Proof.
  unfold rec, x_depth, multiplier, RECURSIVE_X.
  rewrite land_RECURSIVE_MAX, Z.div_1_r. reflexivity.
Qed.

Lemma rec_U (r : Z) : 0 <= r < 2 ^ 32 -> rec true r = u_depth r.
Proof.
  intros Hr. unfold rec, u_depth, multiplier.
  rewrite land_RECURSIVE_MAX, RECURSIVE_U_eq.
  change (2 ^ 16) with 65536 in *. change (2 ^ 32) with 4294967296 in *.
  apply Z.mod_small. dlia.
Qed.

Lemma rec_depth (allow_readers : bool) (r : Z) :
  0 <= r < 2 ^ 32 -> rec allow_readers r = depth allow_readers r.
Proof.
  intros Hr. destruct allow_readers; simpl.
  - apply rec_U, Hr.
  - apply rec_X.
Qed.

Lemma to_bool_true (z : Z) : to_bool z = true <-> z <> 0.
Proof. unfold to_bool. rewrite negb_true_iff, Z.eqb_neq. reflexivity. Qed.

Lemma to_bool_false (z : Z) : to_bool z = false <-> z = 0.
Proof. unfold to_bool. rewrite negb_false_iff, Z.eqb_eq. reflexivity. Qed.

Ltac zconst :=
  change (2 ^ 16) with 65536 in *; change (2 ^ 32) with 4294967296 in *;
  change RECURSIVE_X with 1 in *; change RECURSIVE_U with 65536 in *;
  change RECURSIVE_MAX with 65535 in *.

Ltac depths :=
  unfold depth, multiplier, x_depth, u_depth, uint32_t in *; zconst.

Lemma add_step (allow_readers : bool) (r : Z) :
  0 <= r < 2 ^ 32 ->
  depth allow_readers r < RECURSIVE_MAX ->
  let r' := uint32_t (r + multiplier allow_readers) in
  r' = r + multiplier allow_readers /\
  depth allow_readers r' = depth allow_readers r + 1 /\
  depth (negb allow_readers) r' = depth (negb allow_readers) r.
Proof.
  intros Hr Hd. destruct allow_readers; depths; simpl; dlia.
Qed.

Lemma sub_step (allow_readers : bool) (r : Z) :
  0 <= r < 2 ^ 32 ->
  1 <= depth allow_readers r ->
  let r' := uint32_t (r - multiplier allow_readers) in
  r' = r - multiplier allow_readers /\
  depth allow_readers r' = depth allow_readers r - 1 /\
  depth (negb allow_readers) r' = depth (negb allow_readers) r.
Proof.
  intros Hr Hd. destruct allow_readers; depths; simpl; dlia.
Qed.

(** ** What each member function computes *)

Ltac unfold_members :=
  unfold call, void, returning,
    s_lock, u_lock, x_lock, x_lock_recursive, u_x_upgrade, x_lock_upgraded,
    s_lock_try, u_lock_try, x_lock_try, s_unlock, u_unlock, x_unlock,
    u_or_x_unlock, claim_ownership, have_x, have_u_not_x, have_u_or_x, have_s,
    s_lock_register, readers_emplace, readers_erase, set_first_owner,
    set_new_owner, writer_exchange, writer_store, IF_DBUG, DBUG_ASSERT,
    writer_recurse,
    count_wait, waits_fetch_add, lock_call, lock_release, ut_ad, ut_d,
    bind, ret, get, modify, abort, to_bool,
    set_lock, set_writer, set_recursive, set_waits, set_readers in *.

(** Case analysis on every test the control flow of the goal depends on,
    innermost tests first. *)
Ltac plain b :=
  lazymatch b with
  | context [if _ then _ else _] => fail
  | context [match _ with Some _ => _ | None => _ end] => fail
  | context [match _ with pair _ _ => _ end] => fail
  | _ => idtac
  end.

(** Name the fields of the object and compute the field accesses. *)
Ltac expose l :=
  destruct l as [lk w r ws rd];
  cbv beta iota delta [lock writer recursive waits readers].

(** The leftmost test of a boolean expression. *)
Ltac leftmost b k :=
  lazymatch b with
  | negb ?x => leftmost x k
  | andb ?x _ => leftmost x k
  | orb ?x _ => leftmost x k
  | _ => k b
  end.

Ltac branch :=
  repeat match goal with
         | |- context [match ?x with pair _ _ => _ end] =>
             plain x; destruct x eqn:?; simpl in *
         | |- context [fst ?x] =>
             plain x; destruct x eqn:?; simpl in *
         | |- context [snd ?x] =>
             plain x; destruct x eqn:?; simpl in *
         | |- context [if ?b then _ else _] =>
             plain b; leftmost b ltac:(fun c => destruct c eqn:?); simpl in *
         | |- context [match ?x with Some _ => _ | None => _ end] =>
             plain x; destruct x eqn:?; simpl in *
         end.

(** Split a conjunction of implications into its cases. *)
Ltac conjs :=
  repeat match goal with
         | |- _ /\ _ => split
         | |- _ -> _ => intro
         end.

(** Close a case by congruence, or by membership in the empty set. *)
Ltac finish :=
  first
    [ congruence
    | exfalso;
      match goal with
      | H : bool_decide _ = true |- _ =>
          apply bool_decide_eq_true in H; set_solver
      end ].

Section members.

Context {T : Type} {srw_ops : srw.ops T}.
Variable UNIV_DEBUG : bool.

Lemma ut_ad_eq (EXPR : M T bool) (l : sux_lock T) :
  ut_ad UNIV_DEBUG EXPR l =
  if UNIV_DEBUG
  then match EXPR l with
       | Some (true, l') => Some (tt, l')
       | _ => None
       end
  else Some (tt, l).
Proof.
  unfold ut_ad, bind. destruct UNIV_DEBUG; [|reflexivity].
  destruct (EXPR l) as [[[] l']|]; reflexivity.
Qed.

Lemma writer_recurse_eq allow_readers id (l : sux_lock T) :
  writer_recurse UNIV_DEBUG allow_readers id l =
  if UNIV_DEBUG && negb (writer_recurse_asserted allow_readers id l)
  then None
  else Some (tt, set_recursive
                   (uint32_t (recursive l + multiplier allow_readers)) l).
Proof.
  unfold writer_recurse_asserted. unfold_members.
  destruct UNIV_DEBUG; simpl; [|reflexivity].
  branch; simpl in *; congruence.
Qed.

Lemma u_lock_eq id (l : sux_lock T) :
  u_lock UNIV_DEBUG id l =
  if writer l =? id then writer_recurse UNIV_DEBUG true id l
  else if UNIV_DEBUG && negb (unowned l) then None
       else Some (tt, acquired srw.u_lock RECURSIVE_U id l).
Proof.
  unfold unowned, acquired. unfold_members. expose l.
  destruct (w =? id); [reflexivity|]. simpl.
  destruct UNIV_DEBUG; simpl; branch; congruence.
Qed.

Lemma x_lock_eq for_io id (l : sux_lock T) :
  x_lock UNIV_DEBUG for_io id l =
  if writer l =? id
  then if UNIV_DEBUG && for_io then None
       else writer_recurse UNIV_DEBUG false id l
  else if UNIV_DEBUG && negb (unowned l) then None
       else Some (tt, acquired srw.wr_lock RECURSIVE_X
                        (if for_io then FOR_IO else id) l).
Proof.
  unfold unowned, acquired. unfold_members. expose l.
  destruct (w =? id); simpl.
  - destruct UNIV_DEBUG, for_io; reflexivity.
  - destruct UNIV_DEBUG; simpl; branch; congruence.
Qed.

Lemma x_lock_recursive_eq id (l : sux_lock T) :
  x_lock_recursive UNIV_DEBUG id l = writer_recurse UNIV_DEBUG false id l.
Proof. reflexivity. Qed.

(** [have_u_or_x()] returns whether the caller is [writer]; its assertion
    is [ut_ad(recursive)]. *)
Lemma have_u_or_x_eq id (l : sux_lock T) :
  have_u_or_x UNIV_DEBUG id l =
  if id =? writer l
  then if UNIV_DEBUG && negb (to_bool (recursive l)) then None
       else Some (true, l)
  else Some (false, l).
Proof.
  unfold_members. destruct (id =? writer l); simpl; [|reflexivity].
  destruct UNIV_DEBUG; simpl; [|reflexivity].
  destruct (recursive l =? 0); reflexivity.
Qed.

Lemma have_u_not_x_eq id (l : sux_lock T) :
  have_u_not_x UNIV_DEBUG id l =
  if id =? writer l
  then if UNIV_DEBUG && negb (to_bool (recursive l)) then None
       else Some (negb (to_bool (rec false (recursive l))), l)
  else Some (false, l).
Proof.
  unfold have_u_not_x, bind at 1. rewrite have_u_or_x_eq.
  destruct (id =? writer l); simpl; [|reflexivity].
  destruct (UNIV_DEBUG && negb (to_bool (recursive l))); reflexivity.
Qed.

Lemma have_x_eq id (l : sux_lock T) :
  have_x UNIV_DEBUG id l =
  if id =? writer l
  then if UNIV_DEBUG && negb (to_bool (recursive l)) then None
       else Some (to_bool (rec false (recursive l)), l)
  else Some (false, l).
Proof.
  unfold have_x, bind at 1. rewrite have_u_or_x_eq.
  destruct (id =? writer l); simpl; [|reflexivity].
  destruct (UNIV_DEBUG && negb (to_bool (recursive l))); reflexivity.
Qed.

Lemma u_x_upgrade_eq id (l : sux_lock T) :
  u_x_upgrade UNIV_DEBUG id l =
  if UNIV_DEBUG && negb (u_x_upgrade_asserted id l) then None
  else Some (tt, acquired srw.u_wr_upgrade (recursive l / RECURSIVE_U)
                   (writer l) l).
Proof.
  unfold u_x_upgrade, bind at 1.
  rewrite ut_ad_eq, have_u_not_x_eq.
  unfold u_x_upgrade_asserted, acquired, rec, multiplier. unfold_members.
  expose l.
  destruct UNIV_DEBUG; simpl; branch; congruence.
Qed.

Lemma x_lock_upgraded_eq id (l : sux_lock T) :
  x_lock_upgraded UNIV_DEBUG id l =
  if writer l =? id
  then if UNIV_DEBUG && negb (to_bool (recursive l)) then None
       else if to_bool (Z.land (recursive l) RECURSIVE_MAX)
            then match writer_recurse UNIV_DEBUG false id l with
                 | Some (_, l') => Some (false, l')
                 | None => None
                 end
            else Some (true,
                       set_recursive (recursive l / RECURSIVE_U)
                         (set_lock (snd (srw.u_wr_upgrade (lock l))) l))
  else if UNIV_DEBUG && negb (unowned l) then None
       else Some (false,
                  set_writer id
                    (set_recursive RECURSIVE_X
                       (set_lock (snd (srw.wr_lock (lock l))) l))).
Proof.
  unfold unowned. unfold_members. expose l.
  destruct (w =? id); simpl.
  - destruct UNIV_DEBUG; simpl; branch; congruence.
  - destruct UNIV_DEBUG; simpl; branch; congruence.
Qed.

Lemma u_lock_try_eq for_io id (l : sux_lock T) :
  u_lock_try UNIV_DEBUG for_io id l =
  if writer l =? id
  then if for_io then Some (false, l)
       else match writer_recurse UNIV_DEBUG true id l with
            | Some (_, l') => Some (true, l')
            | None => None
            end
  else if fst (srw.u_lock_try (lock l))
       then if UNIV_DEBUG && negb (unowned l) then None
            else Some (true,
                       set_writer (if for_io then FOR_IO else id)
                         (set_recursive RECURSIVE_U
                            (set_lock (snd (srw.u_lock_try (lock l))) l)))
       else Some (false, set_lock (snd (srw.u_lock_try (lock l))) l).
Proof.
  unfold unowned. unfold_members. expose l.
  destruct (w =? id); simpl.
  - destruct for_io; [reflexivity|].
    destruct UNIV_DEBUG; simpl; branch; congruence.
  - destruct UNIV_DEBUG; simpl; branch; congruence.
Qed.

Lemma x_lock_try_eq id (l : sux_lock T) :
  x_lock_try UNIV_DEBUG id l =
  if writer l =? id
  then match writer_recurse UNIV_DEBUG false id l with
       | Some (_, l') => Some (true, l')
       | None => None
       end
  else if fst (srw.wr_lock_try (lock l))
       then if UNIV_DEBUG && negb (unowned l) then None
            else Some (true,
                       set_writer id
                         (set_recursive RECURSIVE_X
                            (set_lock (snd (srw.wr_lock_try (lock l))) l)))
       else Some (false, set_lock (snd (srw.wr_lock_try (lock l))) l).
Proof.
  unfold unowned. unfold_members. expose l.
  destruct (w =? id); simpl.
  - destruct UNIV_DEBUG; simpl; branch; congruence.
  - destruct UNIV_DEBUG; simpl; branch; congruence.
Qed.

Lemma u_or_x_unlock_eq allow_readers claim_ownership id (l : sux_lock T) :
  u_or_x_unlock UNIV_DEBUG allow_readers claim_ownership id l =
  if UNIV_DEBUG
     && negb (u_or_x_unlock_asserted allow_readers claim_ownership id l)
  then None
  else let r' := uint32_t (recursive l - multiplier allow_readers) in
       if to_bool r' then Some (tt, set_recursive r' l)
       else if UNIV_DEBUG && (writer l =? 0) then None
            else Some (tt, set_lock (release allow_readers (lock l))
                             (set_writer 0 (set_recursive r' l))).
Proof.
  unfold u_or_x_unlock_asserted, release. unfold_members.
  expose l.
  destruct UNIV_DEBUG, allow_readers; simpl; branch; simpl in *; congruence.
Qed.

Lemma claim_ownership_eq id (l : sux_lock T) :
  claim_ownership UNIV_DEBUG id l =
  if UNIV_DEBUG && (writer l =? 0) then None
  else Some (tt, set_writer id l).
Proof.
  unfold_members. expose l.
  destruct UNIV_DEBUG; simpl; branch; congruence.
Qed.

Lemma s_lock_eq id (l : sux_lock T) :
  s_lock UNIV_DEBUG id l =
  if UNIV_DEBUG
  then if s_lock_asserted id l
       then Some (tt, registered id
                        (acquired srw.rd_lock (recursive l) (writer l) l))
       else None
  else Some (tt, acquired srw.rd_lock (recursive l) (writer l) l).
Proof.
  unfold s_lock_asserted, holds_s, registered, acquired, rec, multiplier.
  unfold_members. expose l.
  destruct UNIV_DEBUG; simpl; branch; finish.
Qed.

Lemma s_lock_try_eq id (l : sux_lock T) :
  s_lock_try UNIV_DEBUG id l =
  let l' := set_lock (snd (srw.rd_lock_try (lock l))) l in
  if fst (srw.rd_lock_try (lock l))
  then if UNIV_DEBUG
       then if holds_s id l then None else Some (true, registered id l')
       else Some (true, l')
  else Some (false, l').
Proof.
  unfold holds_s, registered. unfold_members. expose l.
  destruct UNIV_DEBUG; simpl; branch; finish.
Qed.

Lemma s_unlock_eq id (l : sux_lock T) :
  s_unlock UNIV_DEBUG id l =
  if UNIV_DEBUG
  then match readers l with
       | Some r =>
           if bool_decide (id ∈ r)
           then Some (tt, set_lock (srw.rd_unlock (lock l))
                            (set_readers (Some (r ∖ {[ id ]})) l))
           else None
       | None => None
       end
  else Some (tt, set_lock (srw.rd_unlock (lock l)) l).
Proof.
  unfold_members. expose l.
  destruct UNIV_DEBUG; simpl; branch; congruence.
Qed.

End members.

(** ** The packed counters *)

(** C7: with [x_depth = recursive mod 2^16] and [u_depth = recursive div 2^16]
    (which are the values [rec] computes with the constants of the class),
    adding or subtracting [RECURSIVE_U] changes [u_depth] by exactly one and
    leaves [x_depth] unchanged, and adding or subtracting [RECURSIVE_X]
    changes [x_depth] by exactly one and leaves [u_depth] unchanged,
    whenever the depth that is incremented is below [RECURSIVE_MAX] and the
    depth that is decremented is at least 1; the 32-bit addition and
    subtraction do not wrap in these cases. *)
Theorem C7_packed_counters_never_carry (r : Z) :
  0 <= r < 2 ^ 32 ->
  (rec false r = x_depth r /\ rec true r = u_depth r) /\
  (u_depth r < RECURSIVE_MAX ->
   u_depth (uint32_t (r + RECURSIVE_U)) = u_depth r + 1 /\
   x_depth (uint32_t (r + RECURSIVE_U)) = x_depth r) /\
  (1 <= u_depth r ->
   u_depth (uint32_t (r - RECURSIVE_U)) = u_depth r - 1 /\
   x_depth (uint32_t (r - RECURSIVE_U)) = x_depth r) /\
  (x_depth r < RECURSIVE_MAX ->
   x_depth (uint32_t (r + RECURSIVE_X)) = x_depth r + 1 /\
   u_depth (uint32_t (r + RECURSIVE_X)) = u_depth r) /\
  (1 <= x_depth r ->
   x_depth (uint32_t (r - RECURSIVE_X)) = x_depth r - 1 /\
   u_depth (uint32_t (r - RECURSIVE_X)) = u_depth r).
Proof.
  intros Hr. split; [split; [apply rec_X | apply rec_U, Hr]|].
  repeat apply conj; intros Hd.
  - apply (add_step true r Hr Hd).
  - apply (sub_step true r Hr Hd).
  - apply (add_step false r Hr Hd).
  - apply (sub_step false r Hr Hd).
Qed.

(** At [recursive = 0x00020003] (U depth 2, X depth 3). *)
Lemma C7_packed_counters_never_carry_witness :
  0 <= 131075 < 2 ^ 32 /\
  u_depth (uint32_t (131075 + RECURSIVE_U)) = 3 /\
  x_depth (uint32_t (131075 + RECURSIVE_U)) = 3 /\
  x_depth (uint32_t (131075 - RECURSIVE_X)) = 2 /\
  u_depth (uint32_t (131075 - RECURSIVE_X)) = 2.
Proof.
  assert (Hr : 0 <= 131075 < 2 ^ 32) by (split; [discriminate | reflexivity]).
  destruct (C7_packed_counters_never_carry 131075 Hr)
    as (_ & Hu & _ & _ & Hx).
  split; [exact Hr|].
  split; [apply Hu; reflexivity|].
  split; [apply Hu; reflexivity|].
  split; apply Hx; discriminate.
Defined.

(** ** The query predicates *)

(** C9: for every object and every calling thread, the three predicates
    return (and leave the object alone) unless the caller is [writer] while
    [recursive] is zero in a debug build, where [ut_ad(recursive)] stops all
    three.  When they return, [have_u_not_x()] and [have_x()] are not both
    true, [have_u_or_x()] is true exactly when one of them is, and
    [have_u_or_x()] is the comparison of the caller with [writer], so that
    all three are false for a caller other than [writer]. *)
Theorem C9_query_predicates_consistent {T : Type} (UNIV_DEBUG : bool)
    (id : os_thread_id_t) (l : sux_lock T) :
  (exists a b c : bool,
      have_u_or_x UNIV_DEBUG id l = Some (a, l) /\
      have_u_not_x UNIV_DEBUG id l = Some (b, l) /\
      have_x UNIV_DEBUG id l = Some (c, l) /\
      b && c = false /\
      a = b || c /\
      a = (id =? writer l) /\
      (id = writer l \/ (a = false /\ b = false /\ c = false)))
  \/
  (UNIV_DEBUG = true /\ id = writer l /\ recursive l = 0 /\
   have_u_or_x UNIV_DEBUG id l = None /\
   have_u_not_x UNIV_DEBUG id l = None /\
   have_x UNIV_DEBUG id l = None).
Proof.
  rewrite have_u_or_x_eq, have_u_not_x_eq, have_x_eq.
  destruct (id =? writer l) eqn:Hw.
  - apply Z.eqb_eq in Hw.
    destruct UNIV_DEBUG; simpl.
    + destruct (to_bool (recursive l)) eqn:Hr; simpl.
      * left. exists true, (negb (to_bool (rec false (recursive l)))),
          (to_bool (rec false (recursive l))).
        repeat split; try (left; exact Hw).
        all: destruct (to_bool (rec false (recursive l))); reflexivity.
      * right. apply to_bool_false in Hr. repeat split; assumption.
    + left. exists true, (negb (to_bool (rec false (recursive l)))),
        (to_bool (rec false (recursive l))).
      repeat split; try (left; exact Hw).
      all: destruct (to_bool (rec false (recursive l))); reflexivity.
  - left. exists false, false, false.
    repeat split. right. repeat split.
Qed.

(** ** Release *)

Lemma u_or_x_unlock_asserted_owner {T : Type} (allow_readers claim : bool)
    (id : os_thread_id_t) (l : sux_lock T) :
  0 <= recursive l < 2 ^ 32 ->
  writer l = id ->
  1 <= depth allow_readers (recursive l) ->
  u_or_x_unlock_asserted allow_readers claim id l = true.
Proof.
  intros Hr Hw Hd. unfold u_or_x_unlock_asserted.
  apply Z.eqb_eq in Hw. rewrite Hw. simpl.
  apply to_bool_true. rewrite rec_depth by exact Hr. lia.
Qed.

(** What a release by the owner does, for either mode. *)
Lemma u_or_x_unlock_owner {T : Type} `{srw.ops T}
    (UNIV_DEBUG allow_readers claim : bool) (id : os_thread_id_t)
    (l : sux_lock T) :
  0 <= recursive l < 2 ^ 32 ->
  id <> 0 ->
  writer l = id ->
  1 <= depth allow_readers (recursive l) ->
  u_or_x_unlock UNIV_DEBUG allow_readers claim id l =
  Some (tt,
        if recursive l =? multiplier allow_readers
        then set_lock (release allow_readers (lock l))
               (set_writer 0 (set_recursive 0 l))
        else set_recursive (recursive l - multiplier allow_readers) l).
Proof.
  intros Hr Hid Hw Hd.
  rewrite u_or_x_unlock_eq.
  rewrite (u_or_x_unlock_asserted_owner _ _ _ _ Hr Hw Hd).
  rewrite andb_false_r.
  destruct (sub_step allow_readers (recursive l) Hr Hd) as (Hr' & _).
  cbv zeta in Hr'. cbv zeta. rewrite Hr'.
  destruct (recursive l =? multiplier allow_readers) eqn:He.
  - apply Z.eqb_eq in He. rewrite He, Z.sub_diag. simpl.
    assert (Hz : (writer l =? 0) = false) by (apply Z.eqb_neq; lia).
    rewrite Hz, andb_false_r. reflexivity.
  - apply Z.eqb_neq in He.
    assert (Hb : to_bool (recursive l - multiplier allow_readers) = true)
      by (apply to_bool_true; lia).
    rewrite Hb. reflexivity.
Qed.

(** C5: a call of [u_unlock] or [x_unlock] by the owning thread, with the
    depth of the released mode at least 1, returns, and decrements that depth
    by exactly one.  If the resulting [recursive] is zero, [writer] is set
    to 0 and the matching release of the underlying lock ([u_unlock] for U,
    [wr_unlock] for X) is applied to it; otherwise [writer], the depth of
    the other mode and the underlying lock are unchanged.  [waits] and the
    reader set are unchanged in both cases. *)
Theorem C5_unlock_by_owner {T : Type} `{srw.ops T}
    (UNIV_DEBUG allow_readers claim_ownership : bool) (id : os_thread_id_t)
    (l : sux_lock T) :
  0 <= recursive l < 2 ^ 32 ->
  id <> 0 ->
  writer l = id ->
  1 <= depth allow_readers (recursive l) ->
  exists l' : sux_lock T,
    (if allow_readers
     then u_unlock UNIV_DEBUG claim_ownership id l
     else x_unlock UNIV_DEBUG claim_ownership id l) = Some (tt, l') /\
    depth allow_readers (recursive l') =
      depth allow_readers (recursive l) - 1 /\
    waits l' = waits l /\
    readers l' = readers l /\
    (recursive l' = 0 ->
     writer l' = 0 /\
     lock l' =
       (if allow_readers then srw.u_unlock else srw.wr_unlock) (lock l)) /\
    (recursive l' <> 0 ->
     writer l' = writer l /\
     depth (negb allow_readers) (recursive l') =
       depth (negb allow_readers) (recursive l) /\
     lock l' = lock l).
Proof.
  intros Hr Hid Hw Hd.
  pose proof (u_or_x_unlock_owner UNIV_DEBUG allow_readers claim_ownership
                id l Hr Hid Hw Hd) as Hrun.
  destruct (sub_step allow_readers (recursive l) Hr Hd) as (Hr' & Hd' & Ho').
  cbv zeta in *. rewrite Hr' in Hd', Ho'.
  eexists. split.
  { unfold u_unlock, x_unlock. destruct allow_readers; exact Hrun. }
  destruct (recursive l =? multiplier allow_readers) eqn:He; simpl.
  - apply Z.eqb_eq in He.
    assert (Hz : recursive l - multiplier allow_readers = 0) by lia.
    rewrite Hz in Hd'.
    conjs; simpl in *;
      try assumption; try reflexivity; try contradiction.
  - apply Z.eqb_neq in He.
    conjs; simpl in *; try assumption; try reflexivity; try lia.
Qed.

(** The last [x_unlock] of thread 7 at X depth 1. *)
Lemma C5_unlock_by_owner_witness :
  let l := Sux_lock [srw.Wr_lock] 7 1 0 None in
  0 <= recursive l < 2 ^ 32 /\ 7 <> 0 /\ writer l = 7 /\
  1 <= depth false (recursive l) /\
  exists l' : sux_lock srw.recorder,
    x_unlock (srw_ops := srw.recording (fun _ => true)) true false 7 l
      = Some (tt, l') /\
    depth false (recursive l') = depth false (recursive l) - 1 /\
    waits l' = waits l /\
    readers l' = readers l /\
    (recursive l' = 0 ->
     writer l' = 0 /\ lock l' = [srw.Wr_lock; srw.Wr_unlock]) /\
    (recursive l' <> 0 ->
     writer l' = writer l /\
     depth true (recursive l') = depth true (recursive l) /\
     lock l' = lock l).
Proof.
  intros l.
  assert (Hr : 0 <= recursive l < 2 ^ 32) by (split; [discriminate | reflexivity]).
  assert (Hid : 7 <> 0) by discriminate.
  assert (Hw : writer l = 7) by reflexivity.
  assert (Hd : 1 <= depth false (recursive l)) by discriminate.
  split; [exact Hr|]. split; [exact Hid|].
  split; [exact Hw|]. split; [exact Hd|].
  exact (C5_unlock_by_owner (H := srw.recording (fun _ => true))
           true false false 7 l Hr Hid Hw Hd).
Defined.

(** ** Recursive acquisition *)

Lemma debug_only (UNIV_DEBUG b : bool) :
  (UNIV_DEBUG = true -> b = true) -> UNIV_DEBUG && negb b = false.
Proof. destruct UNIV_DEBUG, b; simpl; intros Hb; auto; discriminate Hb; reflexivity. Qed.

(** The assertions of [writer_recurse] in terms of the two depths. *)
Lemma writer_recurse_asserted_true {T : Type} (allow_readers : bool)
    (id : os_thread_id_t) (l : sux_lock T) :
  0 <= recursive l < 2 ^ 32 ->
  writer_recurse_asserted allow_readers id l = true <->
  writer l = id /\
  (if allow_readers then recursive l <> 0 else x_depth (recursive l) <> 0) /\
  depth allow_readers (recursive l) < RECURSIVE_MAX.
Proof.
  intros Hr. unfold writer_recurse_asserted.
  rewrite !andb_true_iff, Z.eqb_eq, Z.ltb_lt, to_bool_true.
  rewrite (rec_depth allow_readers _ Hr).
  destruct allow_readers; simpl; rewrite ?rec_X; tauto.
Qed.

Lemma writer_recurse_run {T : Type} (UNIV_DEBUG allow_readers : bool)
    (id : os_thread_id_t) (l : sux_lock T) :
  (UNIV_DEBUG = true -> writer_recurse_asserted allow_readers id l = true) ->
  writer_recurse UNIV_DEBUG allow_readers id l =
  Some (tt, set_recursive
              (uint32_t (recursive l + multiplier allow_readers)) l).
Proof.
  intros Ha. rewrite writer_recurse_eq, (debug_only _ _ Ha). reflexivity.
Qed.

Lemma x_depth_land (r : Z) : Z.land r RECURSIVE_MAX = x_depth r.
Proof. apply land_RECURSIVE_MAX. Qed.

Lemma x_depth_nonzero (r : Z) : x_depth r <> 0 -> r <> 0.
Proof. intros Hx Hz. apply Hx. rewrite Hz. reflexivity. Qed.

(** ** x_lock_upgraded *)

(** C2: [x_lock_upgraded()] has three cases.
    (a) The caller is [writer] and [x_depth] (that is
    [recursive & RECURSIVE_MAX]) is nonzero: a recursive X acquisition that
    returns false, adds [RECURSIVE_X] to [recursive] and touches neither
    [writer] nor the underlying lock; below [RECURSIVE_MAX], which
    [writer_recurse] asserts, this is [x_depth] plus one and [u_depth]
    unchanged.
    (b) The caller is [writer] and [x_depth] is zero: the underlying
    [u_wr_upgrade] is invoked, [recursive] is divided by [RECURSIVE_U], which
    moves the U depth into the X depth, and true is returned (a debug build
    asserts [recursive] nonzero).
    (c) The caller is not [writer]: the underlying [wr_lock] is invoked,
    [recursive] becomes [RECURSIVE_X], [writer] the caller, and false is
    returned (a debug build asserts that the object was unowned).
    [waits] is unchanged in all three. *)
Theorem C2_x_lock_upgraded_three_cases {T : Type} `{srw.ops T}
    (UNIV_DEBUG : bool) (id : os_thread_id_t) (l : sux_lock T) :
  0 <= recursive l < 2 ^ 32 ->
  (writer l = id ->
   x_depth (recursive l) <> 0 ->
   (UNIV_DEBUG = true -> x_depth (recursive l) < RECURSIVE_MAX) ->
   x_lock_upgraded UNIV_DEBUG id l =
     Some (false, set_recursive (uint32_t (recursive l + RECURSIVE_X)) l) /\
   (x_depth (recursive l) < RECURSIVE_MAX ->
    x_depth (uint32_t (recursive l + RECURSIVE_X)) =
      x_depth (recursive l) + 1 /\
    u_depth (uint32_t (recursive l + RECURSIVE_X)) = u_depth (recursive l)))
  /\
  (writer l = id ->
   x_depth (recursive l) = 0 ->
   (UNIV_DEBUG = true -> recursive l <> 0) ->
   x_lock_upgraded UNIV_DEBUG id l =
     Some (true,
           set_recursive (recursive l / RECURSIVE_U)
             (set_lock (snd (srw.u_wr_upgrade (lock l))) l)) /\
   x_depth (recursive l / RECURSIVE_U) = u_depth (recursive l) /\
   u_depth (recursive l / RECURSIVE_U) = 0)
  /\
  (writer l <> id ->
   (UNIV_DEBUG = true -> recursive l = 0 /\ writer l = 0) ->
   x_lock_upgraded UNIV_DEBUG id l =
     Some (false,
           set_writer id
             (set_recursive RECURSIVE_X
                (set_lock (snd (srw.wr_lock (lock l))) l)))).
Proof.
  intros Hr. rewrite x_lock_upgraded_eq, x_depth_land.
  split; [|split].
  - intros Hw Hx Hmax.
    apply Z.eqb_eq in Hw as Hw'. rewrite Hw'.
    assert (Hrec : to_bool (recursive l) = true)
      by (apply to_bool_true, x_depth_nonzero, Hx).
    assert (Hxb : to_bool (x_depth (recursive l)) = true)
      by (apply to_bool_true, Hx).
    rewrite Hrec, Hxb, andb_false_r.
    rewrite writer_recurse_run.
    + split; [reflexivity|]. intros Hlt.
      destruct (add_step false (recursive l) Hr Hlt) as (_ & Hd & Ho).
      split; [exact Hd | exact Ho].
    + intros Hd. apply writer_recurse_asserted_true; [exact Hr|].
      repeat split; [exact Hw | exact Hx | exact (Hmax Hd)].
  - intros Hw Hx Hdbg.
    apply Z.eqb_eq in Hw as Hw'. rewrite Hw'.
    assert (Hxb : to_bool (x_depth (recursive l)) = false)
      by (apply to_bool_false, Hx).
    rewrite Hxb, debug_only.
    + split; [reflexivity|]. depths. dlia.
    + intros Hd. apply to_bool_true, Hdbg, Hd.
  - intros Hw Hdbg.
    apply Z.eqb_neq in Hw as Hw'. rewrite Hw'.
    rewrite debug_only; [reflexivity|].
    intros Hd. destruct (Hdbg Hd) as (Hz & Hwz).
    unfold unowned. rewrite Hz, Hwz. reflexivity.
Qed.

(** Thread 7 at X depth 1, at U depth 2, and on a new lock, in a debug
    build over a recording lock. *)
Lemma C2_x_lock_upgraded_three_cases_witness :
  x_lock_upgraded (srw_ops := srw.recording (fun _ => true)) true 7
    (Sux_lock [srw.Wr_lock] 7 1 0 None)
  = Some (false, Sux_lock [srw.Wr_lock] 7 2 0 None) /\
  x_lock_upgraded (srw_ops := srw.recording (fun _ => true)) true 7
    (Sux_lock [srw.U_lock] 7 131072 0 None)
  = Some (true, Sux_lock [srw.U_lock; srw.U_wr_upgrade] 7 2 0 None) /\
  x_lock_upgraded (srw_ops := srw.recording (fun _ => true)) true 7 fresh
  = Some (false, Sux_lock [srw.Wr_lock] 7 1 0 None).
Proof.
  split; [|split].
  - refine (proj1 (proj1
      (C2_x_lock_upgraded_three_cases (H := srw.recording (fun _ => true))
         true 7 (Sux_lock [srw.Wr_lock] 7 1 0 None) _) _ _ _)).
    + split; [discriminate | reflexivity].
    + reflexivity.
    + discriminate.
    + intros _. reflexivity.
  - refine (proj1 (proj1 (proj2
      (C2_x_lock_upgraded_three_cases (H := srw.recording (fun _ => true))
         true 7 (Sux_lock [srw.U_lock] 7 131072 0 None) _)) _ _ _)).
    + split; [discriminate | reflexivity].
    + reflexivity.
    + reflexivity.
    + intros _. discriminate.
  - refine (proj2 (proj2
      (C2_x_lock_upgraded_three_cases (H := srw.recording (fun _ => true))
         true 7 fresh _)) _ _).
    + split; [discriminate | reflexivity].
    + discriminate.
    + intros _. split; reflexivity.
Defined.

(** ** u_lock_try *)

(** C6: [u_lock_try(for_io)] called by the thread recorded in [writer]
    returns false and leaves the whole object (the underlying lock included)
    unchanged when [for_io] is true; when [for_io] is false it returns true
    after adding [RECURSIVE_U] to [recursive], which is [u_depth] plus one
    below [RECURSIVE_MAX], without a call of the underlying lock (a debug
    build asserts [recursive] nonzero and [u_depth] below [RECURSIVE_MAX]).
    Called by any other thread it returns the result of the underlying
    [u_lock_try]; on success it sets [recursive] to [RECURSIVE_U] and
    [writer] to [FOR_IO] if [for_io] and to the caller otherwise (a debug
    build asserts that the object was unowned); on failure [recursive],
    [writer], [waits] and the reader set are unchanged and the underlying
    lock is as its own failed attempt left it, so that the object is
    unchanged if that attempt has no effect. *)
Theorem C6_u_lock_try_cases {T : Type} `{srw.ops T}
    (UNIV_DEBUG : bool) (id : os_thread_id_t) (l : sux_lock T) :
  0 <= recursive l < 2 ^ 32 ->
  (writer l = id -> u_lock_try UNIV_DEBUG true id l = Some (false, l))
  /\
  (writer l = id ->
   (UNIV_DEBUG = true ->
    recursive l <> 0 /\ u_depth (recursive l) < RECURSIVE_MAX) ->
   u_lock_try UNIV_DEBUG false id l =
     Some (true, set_recursive (uint32_t (recursive l + RECURSIVE_U)) l) /\
   (u_depth (recursive l) < RECURSIVE_MAX ->
    u_depth (uint32_t (recursive l + RECURSIVE_U)) =
      u_depth (recursive l) + 1 /\
    x_depth (uint32_t (recursive l + RECURSIVE_U)) = x_depth (recursive l)))
  /\
  (forall for_io : bool,
   writer l <> id ->
   (UNIV_DEBUG = true -> fst (srw.u_lock_try (lock l)) = true ->
    recursive l = 0 /\ writer l = 0) ->
   u_lock_try UNIV_DEBUG for_io id l =
     Some (fst (srw.u_lock_try (lock l)),
           if fst (srw.u_lock_try (lock l))
           then set_writer (if for_io then FOR_IO else id)
                  (set_recursive RECURSIVE_U
                     (set_lock (snd (srw.u_lock_try (lock l))) l))
           else set_lock (snd (srw.u_lock_try (lock l))) l) /\
   (fst (srw.u_lock_try (lock l)) = false ->
    snd (srw.u_lock_try (lock l)) = lock l ->
    u_lock_try UNIV_DEBUG for_io id l = Some (false, l))).
Proof.
  intros Hr. split; [|split].
  - intros Hw. apply Z.eqb_eq in Hw.
    rewrite u_lock_try_eq, Hw. reflexivity.
  - intros Hw Hdbg. apply Z.eqb_eq in Hw as Hw'.
    rewrite u_lock_try_eq, Hw'.
    rewrite writer_recurse_run.
    + split; [reflexivity|]. intros Hlt.
      destruct (add_step true (recursive l) Hr Hlt) as (_ & Hd & Ho).
      split; [exact Hd | exact Ho].
    + intros Hd. apply writer_recurse_asserted_true; [exact Hr|].
      destruct (Hdbg Hd) as (Hnz & Hlt).
      repeat split; [exact Hw | exact Hnz | exact Hlt].
  - intros for_io Hw Hdbg. apply Z.eqb_neq in Hw as Hw'.
    rewrite u_lock_try_eq, Hw'.
    destruct (fst (srw.u_lock_try (lock l))) eqn:Ha.
    + rewrite debug_only.
      * split; [reflexivity | discriminate].
      * intros Hd. destruct (Hdbg Hd eq_refl) as (Hz & Hwz).
        unfold unowned. rewrite Hz, Hwz. reflexivity.
    + split; [reflexivity|]. intros _ Hsame. rewrite Hsame.
      destruct l; reflexivity.
Qed.

(** Thread 7 holding U at depth 1, and thread 8 while the underlying lock
    refuses, respectively grants, the update lock. *)
Lemma C6_u_lock_try_cases_witness :
  u_lock_try (srw_ops := srw.recording (fun _ => true)) true true 7
    (Sux_lock [srw.U_lock] 7 65536 0 None)
  = Some (false, Sux_lock [srw.U_lock] 7 65536 0 None) /\
  u_lock_try (srw_ops := srw.recording (fun _ => true)) true false 7
    (Sux_lock [srw.U_lock] 7 65536 0 None)
  = Some (true, Sux_lock [srw.U_lock] 7 131072 0 None) /\
  u_lock_try (srw_ops := srw.recording (fun _ => false)) true true 8
    (Sux_lock [srw.U_lock] 7 65536 0 None)
  = Some (false, Sux_lock [srw.U_lock; srw.U_lock_try] 7 65536 0 None) /\
  u_lock_try (srw_ops := srw.recording (fun _ => true)) true true 8 fresh
  = Some (true, Sux_lock [srw.U_lock_try] FOR_IO 65536 0 None).
Proof.
  assert (Hr : forall lk w, 0 <= recursive (Sux_lock (T := srw.recorder)
                                            lk w 65536 0 None) < 2 ^ 32)
    by (intros; split; [discriminate | reflexivity]).
  assert (Hf : 0 <= recursive fresh < 2 ^ 32)
    by (split; [discriminate | reflexivity]).
  split; [|split; [|split]].
  - refine (proj1
      (C6_u_lock_try_cases (H := srw.recording (fun _ => true))
         true 7 _ (Hr [srw.U_lock] 7)) _).
    reflexivity.
  - refine (proj1 (proj1 (proj2
      (C6_u_lock_try_cases (H := srw.recording (fun _ => true))
         true 7 _ (Hr [srw.U_lock] 7))) _ _)).
    + reflexivity.
    + intros _. split; [discriminate | reflexivity].
  - refine (proj1 (proj2 (proj2
      (C6_u_lock_try_cases (H := srw.recording (fun _ => false))
         true 8 _ (Hr [srw.U_lock] 7))) true _ _)).
    + discriminate.
    + intros _ Hacq. discriminate Hacq.
  - refine (proj1 (proj2 (proj2
      (C6_u_lock_try_cases (H := srw.recording (fun _ => true))
         true 8 fresh Hf)) true _ _)).
    + discriminate.
    + intros _ _. split; reflexivity.
Defined.

(** ** The I/O sentinel *)

(** Case analysis on the tests that the outcome [H] of a call depends on. *)
Ltac cases_in H :=
  repeat match type of H with
         | context [fst ?x] =>
             plain x; destruct x eqn:?; simpl in H
         | context [snd ?x] =>
             plain x; destruct x eqn:?; simpl in H
         | context [if ?b then _ else _] =>
             plain b; leftmost b ltac:(fun c => destruct c eqn:?); simpl in H
         | context [match ?x with Some _ => _ | None => _ end] =>
             plain x; destruct x eqn:?; simpl in H
         end.

(** Rewrite a call with the equation of the member function it runs. *)
Ltac call_eq H :=
  unfold call, void, returning, bind, ret, u_unlock, x_unlock in H;
  rewrite ?s_lock_eq, ?u_lock_eq, ?x_lock_eq, ?x_lock_recursive_eq,
    ?u_x_upgrade_eq, ?x_lock_upgraded_eq, ?s_lock_try_eq, ?u_lock_try_eq,
    ?x_lock_try_eq, ?s_unlock_eq, ?u_or_x_unlock_eq, ?claim_ownership_eq in H;
  rewrite ?writer_recurse_eq in H;
  cbv zeta in H.

(** The owner field after a call is the old one, the caller, 0, or the
    sentinel passed by a first acquisition with [for_io]. *)
Lemma sentinel_installed {T : Type} `{srw.ops T} (UNIV_DEBUG : bool)
    (e : entry_point) (id : os_thread_id_t) (l l' : sux_lock T)
    (r : option bool) :
  id <> FOR_IO ->
  call UNIV_DEBUG e id l = Some (r, l') ->
  writer l <> FOR_IO ->
  writer l' = FOR_IO ->
  writer l <> id /\
  (e = X_lock true \/
   (e = U_lock_try true /\ r = Some true /\
    fst (srw.u_lock_try (lock l)) = true)).
Proof.
  intros Hid Hcall Hold Hnew.
  assert (H0 : (0 : Z) <> FOR_IO) by discriminate.
  destruct e as [| |for_io| | | | |for_io| | |claim|claim|];
    call_eq Hcall; cases_in Hcall;
    try discriminate Hcall;
    injection Hcall as <- <-;
    unfold acquired, registered in Hnew; simpl in Hnew;
    try congruence.
  all: try (destruct for_io; [|congruence]).
  all: try (split; [apply Z.eqb_neq; assumption|]).
  all: try (left; reflexivity).
  all: try (right; repeat split; congruence).
Qed.

(** C10: when the caller is already [writer], [x_lock(for_io = true)] fails
    the assertion [ut_ad(!for_io)] in a debug build; in a release build it
    is [x_lock(for_io = false)]: [RECURSIVE_X] is added to [recursive],
    [writer] keeps its value (the sentinel is not installed) and the
    underlying lock is not called.  That is what [x_lock(false)] by the
    owner does in a debug build too, where [x_depth] is asserted nonzero
    and below [RECURSIVE_MAX], so that [x_depth] grows by one and [u_depth]
    is unchanged.  For a caller that is not the sentinel itself, a call of
    any entry point turns [writer] into [FOR_IO] only on the non-recursive
    path of [x_lock(true)] and on a successful non-recursive
    [u_lock_try(true)]. *)
Theorem C10_for_io_ignored_by_recursive_x_lock {T : Type} `{srw.ops T}
    (id : os_thread_id_t) (l : sux_lock T) :
  (writer l = id ->
   let l' := set_recursive (uint32_t (recursive l + RECURSIVE_X)) l in
   x_lock true true id l = None /\
   x_lock false true id l = Some (tt, l') /\
   x_lock false false id l = Some (tt, l') /\
   (0 <= recursive l < 2 ^ 32 ->
    x_depth (recursive l) <> 0 ->
    x_depth (recursive l) < RECURSIVE_MAX ->
    x_lock true false id l = Some (tt, l') /\
    x_depth (recursive l') = x_depth (recursive l) + 1 /\
    u_depth (recursive l') = u_depth (recursive l)))
  /\
  (forall (UNIV_DEBUG : bool) (e : entry_point) (r : option bool)
          (l' : sux_lock T),
   id <> FOR_IO ->
   call UNIV_DEBUG e id l = Some (r, l') ->
   writer l <> FOR_IO ->
   writer l' = FOR_IO ->
   writer l <> id /\
   (e = X_lock true \/
    (e = U_lock_try true /\ r = Some true /\
     fst (srw.u_lock_try (lock l)) = true))).
Proof.
  split.
  - intros Hw l'. apply Z.eqb_eq in Hw as Hw'.
    rewrite !x_lock_eq, Hw'. simpl.
    rewrite (writer_recurse_run false false id l) by discriminate.
    repeat split.
    + rewrite writer_recurse_run; [reflexivity|]. intros _.
      apply writer_recurse_asserted_true; [assumption|].
      repeat split; assumption.
    + apply (add_step false (recursive l)); assumption.
    + apply (add_step false (recursive l)); assumption.
  - intros UNIV_DEBUG e r l'. apply sentinel_installed.
Qed.

(** Thread 7 at X depth 1 calls [x_lock(true)] and [x_lock(false)]; thread
    8 installs the sentinel on a new lock by [x_lock(true)]. *)
Lemma C10_for_io_ignored_by_recursive_x_lock_witness :
  x_lock (srw_ops := srw.recording (fun _ => true)) true true 7
    (Sux_lock [srw.Wr_lock] 7 1 0 None) = None /\
  x_lock (srw_ops := srw.recording (fun _ => true)) false true 7
    (Sux_lock [srw.Wr_lock] 7 1 0 None)
  = Some (tt, Sux_lock [srw.Wr_lock] 7 2 0 None) /\
  x_lock (srw_ops := srw.recording (fun _ => true)) true false 7
    (Sux_lock [srw.Wr_lock] 7 1 0 None)
  = Some (tt, Sux_lock [srw.Wr_lock] 7 2 0 None) /\
  call (H := srw.recording (fun _ => true)) true (X_lock true) 8 fresh
  = Some (None, Sux_lock [srw.Wr_lock] FOR_IO 1 0 None) /\
  writer fresh <> 8.
Proof.
  pose proof (C10_for_io_ignored_by_recursive_x_lock
                (H := srw.recording (fun _ => true)) 7
                (Sux_lock [srw.Wr_lock] 7 1 0 None)) as (Hrec & _).
  specialize (Hrec eq_refl). cbv zeta in Hrec.
  destruct Hrec as (Hdbg & Hrel & _ & Hok).
  split; [exact Hdbg|]. split; [exact Hrel|].
  split.
  { refine (proj1 (Hok _ _ _)).
    - split; [discriminate | reflexivity].
    - discriminate.
    - reflexivity. }
  split; [reflexivity|].
  pose proof (C10_for_io_ignored_by_recursive_x_lock
                (H := srw.recording (fun _ => true)) 8 fresh) as (_ & Hins).
  refine (proj1 (Hins true (X_lock true) None
                   (Sux_lock [srw.Wr_lock] FOR_IO 1 0 None) _ _ _ _)).
  - discriminate.
  - reflexivity.
  - discriminate.
  - reflexivity.
Defined.

(** ** Chains of acquisitions and releases *)

Lemma times_S {T : Type} (n : nat) (m : M T unit) (l : sux_lock T) :
  times (S n) m l =
  match m l with
  | Some (_, l') => times n m l'
  | None => None
  end.
Proof. reflexivity. Qed.

Lemma times_add {T : Type} (n k : nat) (m : M T unit) (l : sux_lock T) :
  times (n + k) m l =
  match times n m l with
  | Some (_, l') => times k m l'
  | None => None
  end.
Proof.
  revert l. induction n as [|n IH]; intros l.
  - reflexivity.
  - change (S n + k)%nat with (S (n + k)). rewrite !times_S.
    destruct (m l) as [[[] l']|]; [apply IH | reflexivity].
Qed.

Lemma bind_eq {T A B : Type} (m : M T A) (k : A -> M T B) (l : sux_lock T) :
  bind m k l =
  match m l with
  | Some (a, l') => k a l'
  | None => None
  end.
Proof. reflexivity. Qed.

Lemma set_recursive_same {T : Type} (l : sux_lock T) :
  set_recursive (recursive l) l = l.
Proof. destruct l; reflexivity. Qed.

(** [n] recursive acquisitions in one mode by the owner add [n] to the
    depth of that mode, as long as it stays within [RECURSIVE_MAX]. *)
Lemma times_writer_recurse {T : Type} (UNIV_DEBUG allow_readers : bool)
    (id : os_thread_id_t) (m : M T unit) (n : nat) :
  (forall l : sux_lock T,
      writer l = id -> m l = writer_recurse UNIV_DEBUG allow_readers id l) ->
  forall l : sux_lock T,
    0 <= recursive l < 2 ^ 32 ->
    writer l = id ->
    1 <= depth allow_readers (recursive l) ->
    depth allow_readers (recursive l) + Z.of_nat n <= RECURSIVE_MAX ->
    times n m l =
    Some (tt, set_recursive
                (recursive l + Z.of_nat n * multiplier allow_readers) l).
Proof.
  intros Hm. induction n as [|n IH]; intros l Hr Hw Hd Hmax.
  - simpl. rewrite Z.add_0_r, set_recursive_same. reflexivity.
  - rewrite times_S, (Hm l Hw), writer_recurse_run.
    + assert (Hlt : depth allow_readers (recursive l) < RECURSIVE_MAX) by lia.
      destruct (add_step allow_readers (recursive l) Hr Hlt) as (He & Hd' & _).
      cbv zeta in He, Hd'. rewrite He in *.
      rewrite IH; simpl.
      * f_equal. f_equal. unfold set_recursive; simpl. f_equal. lia.
      * destruct allow_readers; depths; simpl in *; dlia.
      * exact Hw.
      * lia.
      * lia.
    + intros _. apply writer_recurse_asserted_true; [exact Hr|].
      split; [exact Hw|]. split; [|lia].
      destruct allow_readers; [|exact (ltac:(simpl in Hd; lia))].
      depths. dlia.
Qed.

(** [n] releases in one mode by the owner that leave [recursive] nonzero
    only subtract from it. *)
Lemma times_unlock_partial {T : Type} `{srw.ops T}
    (UNIV_DEBUG allow_readers claim : bool) (id : os_thread_id_t) (n : nat) :
  id <> 0 ->
  forall l : sux_lock T,
    0 <= recursive l < 2 ^ 32 ->
    writer l = id ->
    Z.of_nat n <= depth allow_readers (recursive l) ->
    Z.of_nat n * multiplier allow_readers < recursive l ->
    times n (u_or_x_unlock UNIV_DEBUG allow_readers claim id) l =
    Some (tt, set_recursive
                (recursive l - Z.of_nat n * multiplier allow_readers) l).
Proof.
  intros Hid. induction n as [|n IH]; intros l Hr Hw Hd Hlt.
  - simpl. rewrite Z.sub_0_r, set_recursive_same. reflexivity.
  - assert (Hd1 : 1 <= depth allow_readers (recursive l)) by lia.
    rewrite times_S, (u_or_x_unlock_owner _ _ _ _ _ Hr Hid Hw Hd1).
    assert (Hm : 0 < multiplier allow_readers)
      by (destruct allow_readers; reflexivity).
    assert (Hne : (recursive l =? multiplier allow_readers) = false)
      by (apply Z.eqb_neq; nia).
    rewrite Hne.
    destruct (sub_step allow_readers (recursive l) Hr Hd1) as (He & Hd' & _).
    cbv zeta in He, Hd'. rewrite He in Hd'.
    rewrite IH; simpl.
    + f_equal. f_equal. unfold set_recursive; simpl. f_equal. lia.
    + lia.
    + exact Hw.
    + lia.
    + nia.
Qed.

(** [n] releases of a pure chain of depth [n] release the lock. *)
Lemma times_unlock_all {T : Type} `{srw.ops T}
    (UNIV_DEBUG allow_readers claim : bool) (id : os_thread_id_t) (n : nat) :
  id <> 0 ->
  forall l : sux_lock T,
    (1 <= n)%nat ->
    Z.of_nat n <= RECURSIVE_MAX ->
    writer l = id ->
    recursive l = Z.of_nat n * multiplier allow_readers ->
    times n (u_or_x_unlock UNIV_DEBUG allow_readers claim id) l =
    Some (tt, set_lock (release allow_readers (lock l))
                (set_writer 0 (set_recursive 0 l))).
Proof.
  intros Hid l Hn Hmax Hw He.
  assert (Hm : multiplier allow_readers = 65536 \/ multiplier allow_readers = 1)
    by (destruct allow_readers; [left | right]; reflexivity).
  assert (Hr : 0 <= recursive l < 2 ^ 32) by (zconst; lia).
  assert (Hd : depth allow_readers (recursive l) = Z.of_nat n).
  { rewrite He. destruct allow_readers; depths; simpl; dlia. }
  replace n with (Nat.pred n + 1)%nat by lia.
  rewrite times_add, times_unlock_partial; try assumption; try lia.
  simpl times. rewrite bind_eq.
  rewrite u_or_x_unlock_owner; simpl; try assumption.
  - replace (recursive l - Z.of_nat (Nat.pred n) * multiplier allow_readers
             =? multiplier allow_readers) with true
      by (symmetry; apply Z.eqb_eq; nia).
    reflexivity.
  - lia.
  - replace (recursive l - Z.of_nat (Nat.pred n) * multiplier allow_readers)
      with (multiplier allow_readers) by nia.
    destruct allow_readers; discriminate.
Qed.

Lemma unowned_Free {T : Type} (l : sux_lock T) : Free l -> unowned l = true.
Proof. intros (Hr & Hw). unfold unowned. rewrite Hr, Hw. reflexivity. Qed.

Lemma Free_not_owner {T : Type} (id : os_thread_id_t) (l : sux_lock T) :
  id <> 0 -> Free l -> (writer l =? id) = false.
Proof. intros Hid (_ & Hw). apply Z.eqb_neq. lia. Qed.

(** [n] calls of [x_lock()] on an unowned lock: one call of the underlying
    [wr_lock], then [n - 1] recursive acquisitions. *)
Lemma x_lock_chain {T : Type} `{srw.ops T} (UNIV_DEBUG : bool)
    (id : os_thread_id_t) (n : nat) (l : sux_lock T) :
  id <> 0 ->
  1 <= Z.of_nat n <= RECURSIVE_MAX ->
  Free l ->
  times n (x_lock UNIV_DEBUG false id) l =
  Some (tt, acquired srw.wr_lock (Z.of_nat n) id l).
Proof.
  intros Hid Hn HF. zconst. destruct n as [|n]; [lia|].
  rewrite times_S, x_lock_eq, (Free_not_owner id l Hid HF).
  rewrite (unowned_Free l HF), andb_false_r.
  rewrite (times_writer_recurse UNIV_DEBUG false id).
  - unfold acquired, set_recursive; simpl recursive.
    do 3 f_equal. change (multiplier false) with 1. zconst. lia.
  - intros l' Hw. apply Z.eqb_eq in Hw. rewrite x_lock_eq, Hw, andb_false_r.
    reflexivity.
  - split; [discriminate | reflexivity].
  - reflexivity.
  - discriminate.
  - change (depth false (recursive (acquired srw.wr_lock RECURSIVE_X id l)))
      with 1.
    zconst. lia.
Qed.

(** [k] calls of [u_lock()] on an unowned lock: one call of the underlying
    [u_lock], then [k - 1] recursive acquisitions. *)
Lemma u_lock_chain {T : Type} `{srw.ops T} (UNIV_DEBUG : bool)
    (id : os_thread_id_t) (k : nat) (l : sux_lock T) :
  id <> 0 ->
  1 <= Z.of_nat k <= RECURSIVE_MAX ->
  Free l ->
  times k (u_lock UNIV_DEBUG id) l =
  Some (tt, acquired srw.u_lock (Z.of_nat k * RECURSIVE_U) id l).
Proof.
  intros Hid Hk HF. zconst. destruct k as [|k]; [lia|].
  rewrite times_S, u_lock_eq, (Free_not_owner id l Hid HF).
  rewrite (unowned_Free l HF), andb_false_r.
  rewrite (times_writer_recurse UNIV_DEBUG true id).
  - unfold acquired, set_recursive; simpl recursive.
    do 3 f_equal. change (multiplier true) with 65536. zconst. lia.
  - intros l' Hw. apply Z.eqb_eq in Hw. rewrite u_lock_eq, Hw. reflexivity.
  - split; [discriminate | reflexivity].
  - reflexivity.
  - discriminate.
  - change (depth true (recursive (acquired srw.u_lock RECURSIVE_U id l)))
      with 1.
    zconst. lia.
Qed.

Lemma x_depth_small (n : Z) : 0 <= n <= RECURSIVE_MAX -> x_depth n = n.
Proof. intros Hn. depths. dlia. Qed.

(** C4: for every thread and every [n] with [1 <= n <= 65535], [n] calls
    of [x_lock()] on an unowned lock followed by [n] calls of [x_unlock()]
    return, in both builds, and leave [recursive = 0] and [writer = 0].
    The underlying lock receives [wr_lock] once, in the first [x_lock()],
    and [wr_unlock] once, in the last [x_unlock()]: after the [n]
    acquisitions and any [j < n] releases the caller is still [writer] at
    depth [n - j] and the underlying lock is as [wr_lock] left it. *)
Theorem C4_x_lock_n_times_x_unlock_n_times {T : Type} `{srw.ops T}
    (UNIV_DEBUG : bool) (id : os_thread_id_t) (n : nat) (l : sux_lock T) :
  id <> 0 ->
  1 <= Z.of_nat n <= RECURSIVE_MAX ->
  Free l ->
  (forall j : nat, (j < n)%nat ->
   exists l' : sux_lock T,
     (times n (x_lock UNIV_DEBUG false id) ;;
      times j (x_unlock UNIV_DEBUG false id)) l = Some (tt, l') /\
     writer l' = id /\
     recursive l' = Z.of_nat (n - j) /\
     lock l' = snd (srw.wr_lock (lock l)))
  /\
  (exists l' : sux_lock T,
     (times n (x_lock UNIV_DEBUG false id) ;;
      times n (x_unlock UNIV_DEBUG false id)) l = Some (tt, l') /\
     recursive l' = 0 /\
     writer l' = 0 /\
     lock l' = srw.wr_unlock (snd (srw.wr_lock (lock l)))).
Proof.
  intros Hid Hn HF. split.
  - intros j Hj. rewrite bind_eq, (x_lock_chain _ _ _ _ Hid Hn HF).
    zconst.
    unfold x_unlock. rewrite times_unlock_partial; simpl recursive.
    + eexists. split; [reflexivity|]. simpl.
      repeat split. zconst. lia.
    + exact Hid.
    + zconst. lia.
    + reflexivity.
    + rewrite x_depth_small; zconst; lia.
    + change (multiplier false) with 1. zconst. lia.
  - rewrite bind_eq, (x_lock_chain _ _ _ _ Hid Hn HF).
    zconst. unfold x_unlock. rewrite times_unlock_all.
    + eexists. split; [reflexivity|]. repeat split.
    + exact Hid.
    + lia.
    + zconst. lia.
    + reflexivity.
    + simpl. change (multiplier false) with 1. zconst. lia.
Qed.

(** Thread 7 takes X three times on a new lock over a recording lock that
    reports every acquisition as immediate, then releases. *)
Lemma C4_x_lock_n_times_x_unlock_n_times_witness :
  7 <> 0 /\ 1 <= Z.of_nat 3 <= RECURSIVE_MAX /\ Free fresh /\
  (exists l' : sux_lock srw.recorder,
     (times 3 (x_lock (srw_ops := srw.recording (fun _ => true))
                 true false 7) ;;
      times 2 (x_unlock (srw_ops := srw.recording (fun _ => true))
                 true false 7)) fresh = Some (tt, l') /\
     writer l' = 7 /\ recursive l' = 1 /\ lock l' = [srw.Wr_lock]) /\
  (exists l' : sux_lock srw.recorder,
     (times 3 (x_lock (srw_ops := srw.recording (fun _ => true))
                 true false 7) ;;
      times 3 (x_unlock (srw_ops := srw.recording (fun _ => true))
                 true false 7)) fresh = Some (tt, l') /\
     recursive l' = 0 /\ writer l' = 0 /\
     lock l' = [srw.Wr_lock; srw.Wr_unlock]).
Proof.
  assert (Hid : 7 <> 0) by discriminate.
  assert (Hn : 1 <= Z.of_nat 3 <= RECURSIVE_MAX) by (split; discriminate).
  assert (HF : Free fresh) by (split; reflexivity).
  destruct (C4_x_lock_n_times_x_unlock_n_times
              (H := srw.recording (fun _ => true)) true 7 3 fresh Hid Hn HF)
    as (Hpart & Hall).
  split; [exact Hid|]. split; [exact Hn|]. split; [exact HF|].
  split; [|exact Hall].
  apply (Hpart 2%nat). apply Nat.ltb_lt. reflexivity.
Defined.

(** After [k] calls of [u_lock()] on an unowned lock, [u_x_upgrade()] calls
    the underlying [u_wr_upgrade] and leaves the caller with X depth [k]. *)
Lemma u_lock_chain_upgrade {T : Type} `{srw.ops T} (UNIV_DEBUG : bool)
    (id : os_thread_id_t) (k : nat) (l : sux_lock T) :
  id <> 0 ->
  1 <= Z.of_nat k <= RECURSIVE_MAX ->
  Free l ->
  (times k (u_lock UNIV_DEBUG id) ;; u_x_upgrade UNIV_DEBUG id) l =
  Some (tt, acquired srw.u_wr_upgrade (Z.of_nat k) id
              (acquired srw.u_lock (Z.of_nat k * RECURSIVE_U) id l)).
Proof.
  intros Hid Hk HF.
  rewrite bind_eq, (u_lock_chain _ _ _ _ Hid Hk HF), u_x_upgrade_eq.
  rewrite debug_only.
  - unfold acquired at 1 3. simpl recursive. simpl writer.
    rewrite Z.div_mul by discriminate. reflexivity.
  - intros _. unfold u_x_upgrade_asserted. simpl writer. simpl recursive.
    rewrite Z.eqb_refl, rec_X. simpl.
    assert (Hx : x_depth (Z.of_nat k * RECURSIVE_U) = 0)
      by (depths; dlia).
    assert (Hnz : to_bool (Z.of_nat k * RECURSIVE_U) = true)
      by (apply to_bool_true; zconst; lia).
    rewrite Hx, Hnz. reflexivity.
Qed.

Lemma bind_assoc_run {T : Type} (a b c : M T unit) (l : sux_lock T) :
  (a ;; b ;; c) l =
  match (a ;; b) l with
  | Some (_, l') => c l'
  | None => None
  end.
Proof.
  unfold bind. destruct (a l) as [[[] l1]|]; [|reflexivity].
  destruct (b l1) as [[[] l2]|]; reflexivity.
Qed.

(** C1: for every thread and every [k] with [1 <= k <= 65535], on an unowned
    lock, [k] calls of [u_lock()], one [u_x_upgrade()] and [k] calls of
    [x_unlock()] return, in both builds, and leave [recursive = 0] and
    [writer = 0].  The underlying lock receives [u_lock] once, then
    [u_wr_upgrade] once, then [wr_unlock] once, in the last [x_unlock()]:
    after the upgrade and any [j < k] releases the caller is still [writer],
    at X depth [k - j], and the underlying lock is as the upgrade left it. *)
Theorem C1_u_lock_k_times_upgrade_x_unlock_k_times {T : Type} `{srw.ops T}
    (UNIV_DEBUG : bool) (id : os_thread_id_t) (k : nat) (l : sux_lock T) :
  id <> 0 ->
  1 <= Z.of_nat k <= RECURSIVE_MAX ->
  Free l ->
  (forall j : nat, (j < k)%nat ->
   exists l' : sux_lock T,
     (times k (u_lock UNIV_DEBUG id) ;;
      u_x_upgrade UNIV_DEBUG id ;;
      times j (x_unlock UNIV_DEBUG false id)) l = Some (tt, l') /\
     writer l' = id /\
     recursive l' = Z.of_nat (k - j) /\
     lock l' = snd (srw.u_wr_upgrade (snd (srw.u_lock (lock l)))))
  /\
  (exists l' : sux_lock T,
     (times k (u_lock UNIV_DEBUG id) ;;
      u_x_upgrade UNIV_DEBUG id ;;
      times k (x_unlock UNIV_DEBUG false id)) l = Some (tt, l') /\
     recursive l' = 0 /\
     writer l' = 0 /\
     lock l' =
       srw.wr_unlock (snd (srw.u_wr_upgrade (snd (srw.u_lock (lock l)))))).
Proof.
  intros Hid Hk HF. split.
  - intros j Hj.
    rewrite bind_assoc_run, (u_lock_chain_upgrade _ _ _ _ Hid Hk HF).
    zconst. unfold x_unlock. rewrite times_unlock_partial; simpl recursive.
    + eexists. split; [reflexivity|]. simpl.
      repeat split. zconst. lia.
    + exact Hid.
    + zconst. lia.
    + reflexivity.
    + rewrite x_depth_small; zconst; lia.
    + change (multiplier false) with 1. zconst. lia.
  - rewrite bind_assoc_run, (u_lock_chain_upgrade _ _ _ _ Hid Hk HF).
    zconst. unfold x_unlock. rewrite times_unlock_all.
    + eexists. split; [reflexivity|]. repeat split.
    + exact Hid.
    + lia.
    + zconst. lia.
    + reflexivity.
    + simpl. change (multiplier false) with 1. zconst. lia.
Qed.

(** The scenario of the specification: thread 7 calls [u_lock()] twice,
    [u_x_upgrade()], and [x_unlock()] twice, in a debug build over a
    recording lock. *)
Lemma C1_u_lock_k_times_upgrade_x_unlock_k_times_witness :
  7 <> 0 /\ 1 <= Z.of_nat 2 <= RECURSIVE_MAX /\ Free fresh /\
  (exists l' : sux_lock srw.recorder,
     (times 2 (u_lock (srw_ops := srw.recording (fun _ => true)) true 7) ;;
      u_x_upgrade (srw_ops := srw.recording (fun _ => true)) true 7 ;;
      times 1 (x_unlock (srw_ops := srw.recording (fun _ => true))
                 true false 7)) fresh = Some (tt, l') /\
     writer l' = 7 /\ recursive l' = 1 /\
     lock l' = [srw.U_lock; srw.U_wr_upgrade]) /\
  (exists l' : sux_lock srw.recorder,
     (times 2 (u_lock (srw_ops := srw.recording (fun _ => true)) true 7) ;;
      u_x_upgrade (srw_ops := srw.recording (fun _ => true)) true 7 ;;
      times 2 (x_unlock (srw_ops := srw.recording (fun _ => true))
                 true false 7)) fresh = Some (tt, l') /\
     recursive l' = 0 /\ writer l' = 0 /\
     lock l' = [srw.U_lock; srw.U_wr_upgrade; srw.Wr_unlock]).
Proof.
  assert (Hid : 7 <> 0) by discriminate.
  assert (Hk : 1 <= Z.of_nat 2 <= RECURSIVE_MAX) by (split; discriminate).
  assert (HF : Free fresh) by (split; reflexivity).
  destruct (C1_u_lock_k_times_upgrade_x_unlock_k_times
              (H := srw.recording (fun _ => true)) true 7 2 fresh Hid Hk HF)
    as (Hpart & Hall).
  split; [exact Hid|]. split; [exact Hk|]. split; [exact HF|].
  split; [|exact Hall].
  apply (Hpart 1%nat). apply Nat.ltb_lt. reflexivity.
Defined.

(** ** The ownership invariant *)

(** Turn the outcomes of the tests into arithmetic facts. *)
Ltac reflect_tests :=
  repeat match goal with
         | H : (_ =? _) = true |- _ => apply Z.eqb_eq in H
         | H : (_ =? _) = false |- _ => apply Z.eqb_neq in H
         | H : (_ <? _) = true |- _ => apply Z.ltb_lt in H
         | H : (_ <? _) = false |- _ => apply Z.ltb_ge in H
         | H : to_bool _ = true |- _ => apply to_bool_true in H
         | H : to_bool _ = false |- _ => apply to_bool_false in H
         end.

(** Arithmetic on the fields of an explicit object. *)
Ltac fields_arith :=
  reflect_tests;
  unfold well_typed, owned_iff_recursive, acquired, registered, rec,
    set_lock, set_writer, set_recursive, set_waits, set_readers in *;
  simpl in *; branch;
  rewrite ?land_RECURSIVE_MAX in *;
  unfold multiplier, uint32_t in *; zconst;
  dlia.

Lemma call_preserves_invariant {T : Type} `{srw.ops T} (UNIV_DEBUG : bool)
    (e : entry_point) (id : os_thread_id_t) (l : sux_lock T) :
  well_typed l ->
  owned_iff_recursive l ->
  id <> 0 ->
  call true e id l <> None ->
  exists (r : option bool) (l' : sux_lock T),
    call UNIV_DEBUG e id l = Some (r, l') /\
    well_typed l' /\
    owned_iff_recursive l' /\
    (recursive l = 0 -> recursive l' <> 0 -> writer l = 0 /\ writer l' <> 0).
Proof.
  intros Hwt Hinv Hid Hdbg.
  assert (Hio : FOR_IO <> 0) by discriminate.
  destruct e as [| |for_io| | | | |for_io| | |claim|claim|].
  all: call_eq Hdbg.
  all: unfold call, void, returning, bind, ret, u_unlock, x_unlock.
  all: rewrite ?s_lock_eq, ?u_lock_eq, ?x_lock_eq, ?x_lock_recursive_eq,
    ?u_x_upgrade_eq, ?x_lock_upgraded_eq, ?s_lock_try_eq, ?u_lock_try_eq,
    ?x_lock_try_eq, ?s_unlock_eq, ?u_or_x_unlock_eq, ?claim_ownership_eq.
  all: rewrite ?writer_recurse_eq; cbv zeta.
  all: unfold writer_recurse_asserted, unowned, u_x_upgrade_asserted,
    u_or_x_unlock_asserted, s_lock_asserted, holds_s in *.
  all: destruct UNIV_DEBUG; simpl in *.
  all: branch; try (exfalso; cases_in Hdbg; congruence).
  all: do 2 eexists; (split; [reflexivity|]).
  all: cases_in Hdbg; try congruence.
  all: try (destruct for_io).
  all: try fields_arith.
Qed.

(** When a release returns, [writer] is 0 if the decrement made [recursive]
    zero and is untouched otherwise. *)
Lemma unlock_clears_writer {T : Type} `{srw.ops T}
    (UNIV_DEBUG allow_readers claim : bool) (id : os_thread_id_t)
    (l l' : sux_lock T) :
  u_or_x_unlock UNIV_DEBUG allow_readers claim id l = Some (tt, l') ->
  recursive l' = uint32_t (recursive l - multiplier allow_readers) /\
  writer l' = (if recursive l' =? 0 then 0 else writer l).
Proof.
  intros Hrun. rewrite u_or_x_unlock_eq in Hrun. cbv zeta in Hrun.
  cases_in Hrun; try discriminate Hrun; injection Hrun as <-; simpl.
  all: reflect_tests; split; [reflexivity|].
  all: match goal with
       | Hz : uint32_t _ = 0 |- _ => rewrite Hz; reflexivity
       | Hnz : uint32_t _ <> 0 |- _ =>
           apply Z.eqb_neq in Hnz; rewrite Hnz; reflexivity
       end.
Qed.

(** The release build neither reads nor writes the debug reader set. *)
Lemma release_build_ignores_readers {T : Type} `{srw.ops T}
    (e : entry_point) (id : os_thread_id_t)
    (rs : option (gset os_thread_id_t)) (l : sux_lock T) :
  call false e id (set_readers rs l) =
  match call false e id l with
  | Some (r, l') => Some (r, set_readers rs l')
  | None => None
  end.
Proof.
  destruct e as [| |for_io| | | | |for_io| | |claim|claim|].
  all: unfold call, void, returning, bind, ret, u_unlock, x_unlock.
  all: rewrite ?s_lock_eq, ?u_lock_eq, ?x_lock_eq, ?x_lock_recursive_eq,
    ?u_x_upgrade_eq, ?x_lock_upgraded_eq, ?s_lock_try_eq, ?u_lock_try_eq,
    ?x_lock_try_eq, ?s_unlock_eq, ?u_or_x_unlock_eq, ?claim_ownership_eq.
  all: rewrite ?writer_recurse_eq; cbv zeta.
  all: unfold acquired; simpl; branch; reflexivity.
Qed.

Lemma reachable_invariant {T : Type} `{srw.ops T} (UNIV_DEBUG : bool)
    (l : sux_lock T) :
  reachable UNIV_DEBUG l -> well_typed l /\ owned_iff_recursive l.
Proof.
  induction 1
    as [l (Hr & Hw) Hws | l l' e id r _ (Hwt & Hinv) Hid (rs & Hdbg) Hrun].
  - unfold well_typed, owned_iff_recursive. rewrite Hr, Hw, Hws.
    repeat split; try discriminate; try reflexivity; intros; lia.
  - destruct UNIV_DEBUG.
    + assert (Hdbg' : call true e id l <> None) by (rewrite Hrun; discriminate).
      destruct (call_preserves_invariant true e id l Hwt Hinv Hid Hdbg')
        as (r' & l'' & Hrun' & Hwt' & Hinv' & _).
      rewrite Hrun in Hrun'. injection Hrun' as _ <-.
      split; assumption.
    + destruct (call_preserves_invariant false e id (set_readers rs l)
                  Hwt Hinv Hid Hdbg)
        as (r' & l'' & Hrun' & Hwt' & Hinv' & _).
      rewrite release_build_ignores_readers, Hrun in Hrun'.
      injection Hrun' as _ <-.
      split; assumption.
Qed.

(** C3: [recursive > 0] iff [writer != 0] holds of every object that can be
    observed between two calls, and every lock, try-lock, upgrade and unlock
    entry point (and [claim_ownership]) preserves it: a call by a thread
    whose identifier is not 0, on an object that satisfies it, which passes
    the assertions of the debug build, returns in both builds with the
    invariant re-established.  A call that takes [recursive] from 0 to a
    nonzero value takes [writer] from 0 to a nonzero value, and a release
    leaves [writer] at 0 if its decrement made [recursive] zero and
    untouched otherwise. *)
Theorem C3_writer_nonzero_iff_recursive_positive {T : Type} `{srw.ops T}
    (UNIV_DEBUG : bool) :
  (forall l : sux_lock T,
      reachable UNIV_DEBUG l -> well_typed l /\ owned_iff_recursive l)
  /\
  (forall (e : entry_point) (id : os_thread_id_t) (l : sux_lock T),
      well_typed l ->
      owned_iff_recursive l ->
      id <> 0 ->
      call true e id l <> None ->
      exists (r : option bool) (l' : sux_lock T),
        call UNIV_DEBUG e id l = Some (r, l') /\
        well_typed l' /\
        owned_iff_recursive l' /\
        (recursive l = 0 -> recursive l' <> 0 ->
         writer l = 0 /\ writer l' <> 0) /\
        (forall claim : bool,
            e = U_unlock claim \/ e = X_unlock claim ->
            writer l' = (if recursive l' =? 0 then 0 else writer l))).
Proof.
  split; [apply reachable_invariant|].
  intros e id l Hwt Hinv Hid Hdbg.
  destruct (call_preserves_invariant UNIV_DEBUG e id l Hwt Hinv Hid Hdbg)
    as (r & l' & Hrun & Hwt' & Hinv' & Hacq).
  exists r, l'. repeat (split; [assumption|]).
  intros claim [-> | ->]; unfold call, void, u_unlock, x_unlock in Hrun;
    rewrite bind_eq in Hrun.
  - destruct (u_or_x_unlock UNIV_DEBUG true claim id l)
      as [[[] l'']|] eqn:Hu; [|discriminate Hrun].
    injection Hrun as _ <-. apply (unlock_clears_writer _ _ _ _ _ _ Hu).
  - destruct (u_or_x_unlock UNIV_DEBUG false claim id l)
      as [[[] l'']|] eqn:Hu; [|discriminate Hrun].
    injection Hrun as _ <-. apply (unlock_clears_writer _ _ _ _ _ _ Hu).
Qed.

(** Thread 7 takes U on a new lock in a debug build. *)
Lemma C3_writer_nonzero_iff_recursive_positive_witness :
  well_typed fresh /\ owned_iff_recursive fresh /\ 7 <> 0 /\
  call (H := srw.recording (fun _ => true)) true U_lock 7 fresh <> None /\
  exists (r : option bool) (l' : sux_lock srw.recorder),
    call (H := srw.recording (fun _ => true)) true U_lock 7 fresh
      = Some (r, l') /\
    well_typed l' /\
    owned_iff_recursive l' /\
    (recursive fresh = 0 -> recursive l' <> 0 ->
     writer fresh = 0 /\ writer l' <> 0) /\
    (forall claim : bool,
        U_lock = U_unlock claim \/ U_lock = X_unlock claim ->
        writer l' = (if recursive l' =? 0 then 0 else writer fresh)).
Proof.
  assert (Hwt : well_typed fresh)
    by (repeat split; try discriminate; reflexivity).
  assert (Hinv : owned_iff_recursive fresh).
  { split; [intros Hgt; discriminate Hgt | intros Hne; contradiction Hne].
    reflexivity. }
  assert (Hid : 7 <> 0) by discriminate.
  assert (Hdbg : call (H := srw.recording (fun _ => true)) true U_lock 7 fresh
                 <> None) by discriminate.
  split; [exact Hwt|]. split; [exact Hinv|].
  split; [exact Hid|]. split; [exact Hdbg|].
  exact (proj2 (C3_writer_nonzero_iff_recursive_positive
                  (H := srw.recording (fun _ => true)) true)
           U_lock 7 fresh Hwt Hinv Hid Hdbg).
Defined.

(** ** Counting blocking waits *)





(** ** Ownership transfer *)

(** The final release of a lock that was acquired for I/O, by any thread
    that passes [claim_ownership = true]. *)
Lemma sentinel_release {T : Type} `{srw.ops T}
    (UNIV_DEBUG allow_readers : bool) (id : os_thread_id_t) (l : sux_lock T) :
  writer l = FOR_IO ->
  recursive l = multiplier allow_readers ->
  u_or_x_unlock UNIV_DEBUG allow_readers true id l =
  Some (tt, set_lock (release allow_readers (lock l))
              (set_writer 0 (set_recursive 0 l))).
Proof.
  intros Hw Hr. rewrite u_or_x_unlock_eq. cbv zeta.
  unfold u_or_x_unlock_asserted. rewrite Hw, Hr, Z.sub_diag, !Z.eqb_refl.
  destruct (FOR_IO =? id), allow_readers, UNIV_DEBUG; reflexivity.
Qed.

(** X1: a thread takes X for I/O on an unowned lock; [writer] is then the
    sentinel and the acquiring thread does not count as a holder.  Any
    thread can release on behalf of the sentinel with
    [x_unlock(claim_ownership = true)], or adopt the lock with
    [claim_ownership()] and release it with either flag; both ways leave
    the lock unowned after exactly one [wr_lock] and one [wr_unlock] of the
    underlying lock.  A debug build stops a release by a thread that
    neither claimed the lock nor passes the flag. *)
Theorem X1_x_lock_for_io_handoff {T : Type} `{srw.ops T}
    (UNIV_DEBUG claim : bool) (a b : os_thread_id_t) (l : sux_lock T) :
  a <> 0 ->
  b <> 0 ->
  Free l ->
  (exists l1 : sux_lock T,
      x_lock UNIV_DEBUG true a l = Some (tt, l1) /\
      writer l1 = FOR_IO /\ recursive l1 = RECURSIVE_X /\
      (a <> FOR_IO -> have_u_or_x UNIV_DEBUG a l1 = Some (false, l1)))
  /\
  (exists l' : sux_lock T,
      (x_lock UNIV_DEBUG true a ;; x_unlock UNIV_DEBUG true b) l
        = Some (tt, l') /\
      Free l' /\ lock l' = srw.wr_unlock (snd (srw.wr_lock (lock l))))
  /\
  (exists l' : sux_lock T,
      (x_lock UNIV_DEBUG true a ;;
       claim_ownership UNIV_DEBUG b ;;
       x_unlock UNIV_DEBUG claim b) l = Some (tt, l') /\
      Free l' /\ lock l' = srw.wr_unlock (snd (srw.wr_lock (lock l))))
  /\
  (b <> FOR_IO ->
   (x_lock true true a ;; x_unlock true false b) l = None).
Proof.
  intros Ha Hb HF.
  assert (Hx : x_lock UNIV_DEBUG true a l =
               Some (tt, acquired srw.wr_lock RECURSIVE_X FOR_IO l)).
  { rewrite x_lock_eq, (Free_not_owner a l Ha HF), (unowned_Free l HF).
    rewrite andb_false_r. reflexivity. }
  split; [|split; [|split]].
  - eexists. split; [exact Hx|]. repeat split.
    intros Hne. rewrite have_u_or_x_eq. simpl.
    apply Z.eqb_neq in Hne. rewrite Hne. reflexivity.
  - rewrite bind_eq, Hx. unfold x_unlock.
    rewrite (sentinel_release UNIV_DEBUG false) by reflexivity.
    eexists. split; [reflexivity|]. repeat split.
  - rewrite bind_assoc_run, bind_eq, Hx, claim_ownership_eq. simpl writer.
    change (FOR_IO =? 0) with false. rewrite andb_false_r.
    unfold x_unlock. rewrite u_or_x_unlock_owner.
    + eexists. split; [reflexivity|]. simpl. repeat split.
    + split; [discriminate | reflexivity].
    + exact Hb.
    + reflexivity.
    + discriminate.
  - intros Hne.
    assert (Hx' : x_lock true true a l =
                  Some (tt, acquired srw.wr_lock RECURSIVE_X FOR_IO l)).
    { rewrite x_lock_eq, (Free_not_owner a l Ha HF), (unowned_Free l HF).
      reflexivity. }
    rewrite bind_eq, Hx'. unfold x_unlock. rewrite u_or_x_unlock_eq.
    unfold u_or_x_unlock_asserted. simpl writer.
    assert (Hf : (FOR_IO =? b) = false) by (apply Z.eqb_neq; congruence).
    rewrite Hf. reflexivity.
Qed.

(** Thread 7 takes X for I/O on a new lock; thread 8 releases it. *)
Lemma X1_x_lock_for_io_handoff_witness :
  7 <> 0 /\ 8 <> 0 /\ Free fresh /\
  (exists l' : sux_lock srw.recorder,
      (x_lock (srw_ops := srw.recording (fun _ => true)) true true 7 ;;
       x_unlock (srw_ops := srw.recording (fun _ => true)) true true 8) fresh
        = Some (tt, l') /\
      Free l' /\ lock l' = [srw.Wr_lock; srw.Wr_unlock]).
Proof.
  assert (Ha : 7 <> 0) by discriminate.
  assert (Hb : 8 <> 0) by discriminate.
  assert (HF : Free fresh) by (split; reflexivity).
  split; [exact Ha|]. split; [exact Hb|]. split; [exact HF|].
  exact (proj1 (proj2 (X1_x_lock_for_io_handoff
                         (H := srw.recording (fun _ => true))
                         true false 7 8 fresh Ha Hb HF))).
Defined.

(** X2: the same hand-over in U mode.  When the underlying [u_lock_try]
    succeeds on an unowned lock, [u_lock_try(for_io = true)] returns true
    and leaves the sentinel as [writer]; [u_unlock(true)] by any thread, or
    [claim_ownership()] followed by [u_unlock()], then leaves the lock
    unowned, the underlying lock having received [u_lock_try] and
    [u_unlock]. *)
Theorem X2_u_lock_try_for_io_handoff {T : Type} `{srw.ops T}
    (UNIV_DEBUG claim : bool) (a b : os_thread_id_t) (l : sux_lock T) :
  a <> 0 ->
  b <> 0 ->
  Free l ->
  fst (srw.u_lock_try (lock l)) = true ->
  (exists l1 : sux_lock T,
      u_lock_try UNIV_DEBUG true a l = Some (true, l1) /\
      writer l1 = FOR_IO /\ recursive l1 = RECURSIVE_U /\
      waits l1 = waits l)
  /\
  (exists l' : sux_lock T,
      (u_lock_try UNIV_DEBUG true a ;; u_unlock UNIV_DEBUG true b) l
        = Some (tt, l') /\
      Free l' /\ lock l' = srw.u_unlock (snd (srw.u_lock_try (lock l))))
  /\
  (exists l' : sux_lock T,
      (u_lock_try UNIV_DEBUG true a ;;
       claim_ownership UNIV_DEBUG b ;;
       u_unlock UNIV_DEBUG claim b) l = Some (tt, l') /\
      Free l' /\ lock l' = srw.u_unlock (snd (srw.u_lock_try (lock l)))).
Proof.
  intros Ha Hb HF Hgrant.
  assert (Hu : u_lock_try UNIV_DEBUG true a l =
               Some (true, set_writer FOR_IO
                             (set_recursive RECURSIVE_U
                                (set_lock (snd (srw.u_lock_try (lock l))) l)))).
  { rewrite u_lock_try_eq, (Free_not_owner a l Ha HF), Hgrant.
    rewrite (unowned_Free l HF), andb_false_r. reflexivity. }
  split; [|split].
  - eexists. split; [exact Hu|]. repeat split.
  - rewrite bind_eq, Hu. unfold u_unlock.
    rewrite (sentinel_release UNIV_DEBUG true) by reflexivity.
    eexists. split; [reflexivity|]. repeat split.
  - unfold bind at 1. rewrite Hu. rewrite bind_eq, claim_ownership_eq.
    simpl writer. change (FOR_IO =? 0) with false. rewrite andb_false_r.
    unfold u_unlock. rewrite u_or_x_unlock_owner.
    + eexists. split; [reflexivity|]. simpl. repeat split.
    + split; [discriminate | reflexivity].
    + exact Hb.
    + reflexivity.
    + discriminate.
Qed.

(** Thread 7 tries U for I/O on a new lock; thread 8 adopts and releases. *)
Lemma X2_u_lock_try_for_io_handoff_witness :
  7 <> 0 /\ 8 <> 0 /\ Free fresh /\
  fst (srw.u_lock_try (ops := srw.recording (fun _ => true)) (lock fresh))
    = true /\
  (exists l' : sux_lock srw.recorder,
      (u_lock_try (srw_ops := srw.recording (fun _ => true)) true true 7 ;;
       claim_ownership true 8 ;;
       u_unlock (srw_ops := srw.recording (fun _ => true)) true false 8)
        fresh = Some (tt, l') /\
      Free l' /\ lock l' = [srw.U_lock_try; srw.U_unlock]).
Proof.
  assert (Ha : 7 <> 0) by discriminate.
  assert (Hb : 8 <> 0) by discriminate.
  assert (HF : Free fresh) by (split; reflexivity).
  split; [exact Ha|]. split; [exact Hb|]. split; [exact HF|].
  split; [reflexivity|].
  exact (proj2 (proj2 (X2_u_lock_try_for_io_handoff
                         (H := srw.recording (fun _ => true))
                         true false 7 8 fresh Ha Hb HF eq_refl))).
Defined.

(** X3: in a debug build a release by a thread that is not [writer] is
    accepted exactly when [writer] is the sentinel, the caller passes
    [claim_ownership = true] and [recursive] is one acquisition of the
    released mode: a delegate can perform the final release only, never a
    partial one.  The accepted release leaves the lock unowned. *)
Theorem X3_release_by_delegate {T : Type} `{srw.ops T}
    (allow_readers claim : bool) (id : os_thread_id_t) (l : sux_lock T) :
  writer l <> id ->
  ((if allow_readers then u_unlock true claim id l
    else x_unlock true claim id l) <> None
   <->
   writer l = FOR_IO /\ claim = true /\
   recursive l = (if allow_readers then RECURSIVE_U else RECURSIVE_X))
  /\
  (forall l' : sux_lock T,
      (if allow_readers then u_unlock true claim id l
       else x_unlock true claim id l) = Some (tt, l') ->
      Free l' /\
      lock l' = (if allow_readers then srw.u_unlock else srw.wr_unlock)
                  (lock l)).
Proof.
  intros Hne.
  assert (Hrun : (if allow_readers then u_unlock true claim id l
                  else x_unlock true claim id l)
                 = u_or_x_unlock true allow_readers claim id l)
    by (destruct allow_readers; reflexivity).
  rewrite Hrun.
  assert (Hno : (writer l =? id) = false) by (apply Z.eqb_neq; exact Hne).
  assert (Hm : (if allow_readers then RECURSIVE_U else RECURSIVE_X)
               = multiplier allow_readers) by reflexivity.
  rewrite Hm.
  assert (Hiff : u_or_x_unlock true allow_readers claim id l <> None ->
                 writer l = FOR_IO /\ claim = true /\
                 recursive l = multiplier allow_readers).
  { rewrite u_or_x_unlock_eq. unfold u_or_x_unlock_asserted.
    rewrite Hno. simpl.
    destruct (writer l =? FOR_IO) eqn:Hio; simpl; [|congruence].
    destruct claim; simpl; [|congruence].
    destruct (recursive l =? multiplier allow_readers) eqn:Hr; simpl;
      [|congruence].
    intros _. apply Z.eqb_eq in Hio, Hr. repeat split; assumption. }
  split; [split|].
  - exact Hiff.
  - intros (Hw & -> & Hr). rewrite sentinel_release by assumption.
    discriminate.
  - intros l' Hsome.
    destruct Hiff as (Hw & -> & Hr); [rewrite Hsome; discriminate|].
    rewrite sentinel_release in Hsome by assumption.
    injection Hsome as <-. repeat split.
Qed.

(** Thread 8 releases the X lock that was taken for I/O. *)
Lemma X3_release_by_delegate_witness :
  writer (Sux_lock [srw.Wr_lock] FOR_IO 1 0 None) <> 8 /\
  x_unlock (srw_ops := srw.recording (fun _ => true)) true true 8
    (Sux_lock [srw.Wr_lock] FOR_IO 1 0 None) <> None.
Proof.
  assert (Hne : writer (Sux_lock [srw.Wr_lock] FOR_IO 1 0 None) <> 8)
    by discriminate.
  split; [exact Hne|].
  apply (proj1 (X3_release_by_delegate (H := srw.recording (fun _ => true))
                  false true 8 _ Hne)).
  repeat split.
Defined.

(** ** Chains in U mode and mixed chains *)

(** X4: for every thread and every [k] with [1 <= k <= 65535], [k] calls
    of [u_lock()] on an unowned lock followed by [k] calls of [u_unlock()]
    return in both builds and leave the lock unowned.  The underlying lock
    receives [u_lock] once and [u_unlock] once, in the last release: after
    [j < k] releases the caller is still [writer] at U depth [k - j]. *)
Theorem X4_u_lock_k_times_u_unlock_k_times {T : Type} `{srw.ops T}
    (UNIV_DEBUG : bool) (id : os_thread_id_t) (k : nat) (l : sux_lock T) :
  id <> 0 ->
  1 <= Z.of_nat k <= RECURSIVE_MAX ->
  Free l ->
  (forall j : nat, (j < k)%nat ->
   exists l' : sux_lock T,
     (times k (u_lock UNIV_DEBUG id) ;;
      times j (u_unlock UNIV_DEBUG false id)) l = Some (tt, l') /\
     writer l' = id /\
     recursive l' = Z.of_nat (k - j) * RECURSIVE_U /\
     lock l' = snd (srw.u_lock (lock l)))
  /\
  (exists l' : sux_lock T,
     (times k (u_lock UNIV_DEBUG id) ;;
      times k (u_unlock UNIV_DEBUG false id)) l = Some (tt, l') /\
     Free l' /\
     lock l' = srw.u_unlock (snd (srw.u_lock (lock l)))).
Proof.
  intros Hid Hk HF. split.
  - intros j Hj. rewrite bind_eq, (u_lock_chain _ _ _ _ Hid Hk HF).
    zconst. unfold u_unlock. rewrite times_unlock_partial; simpl recursive.
    + eexists. split; [reflexivity|]. simpl.
      repeat split. change (multiplier true) with 65536. zconst. lia.
    + exact Hid.
    + zconst. lia.
    + reflexivity.
    + depths; simpl. dlia.
    + change (multiplier true) with 65536. zconst. lia.
  - rewrite bind_eq, (u_lock_chain _ _ _ _ Hid Hk HF).
    zconst. unfold u_unlock. rewrite times_unlock_all.
    + eexists. split; [reflexivity|]. repeat split.
    + exact Hid.
    + lia.
    + zconst. lia.
    + reflexivity.
    + reflexivity.
Qed.

(** Thread 7 takes U three times on a new lock and releases it. *)
Lemma X4_u_lock_k_times_u_unlock_k_times_witness :
  7 <> 0 /\ 1 <= Z.of_nat 3 <= RECURSIVE_MAX /\ Free fresh /\
  (exists l' : sux_lock srw.recorder,
     (times 3 (u_lock (srw_ops := srw.recording (fun _ => false)) true 7) ;;
      times 3 (u_unlock (srw_ops := srw.recording (fun _ => false))
                 true false 7)) fresh = Some (tt, l') /\
     Free l' /\ lock l' = [srw.U_lock; srw.U_unlock]).
Proof.
  assert (Hid : 7 <> 0) by discriminate.
  assert (Hk : 1 <= Z.of_nat 3 <= RECURSIVE_MAX) by (split; discriminate).
  assert (HF : Free fresh) by (split; reflexivity).
  split; [exact Hid|]. split; [exact Hk|]. split; [exact HF|].
  exact (proj2 (X4_u_lock_k_times_u_unlock_k_times
                  (H := srw.recording (fun _ => false))
                  true 7 3 fresh Hid Hk HF)).
Defined.

(** [m] recursive U acquisitions by the owner of a held lock. *)
Lemma times_u_lock_recursive {T : Type} `{srw.ops T} (UNIV_DEBUG : bool)
    (id : os_thread_id_t) (m : nat) :
  forall l : sux_lock T,
    0 <= recursive l < 2 ^ 32 ->
    writer l = id ->
    recursive l <> 0 ->
    u_depth (recursive l) + Z.of_nat m <= RECURSIVE_MAX ->
    times m (u_lock UNIV_DEBUG id) l =
    Some (tt, set_recursive (recursive l + Z.of_nat m * RECURSIVE_U) l).
Proof.
  induction m as [|m IH]; intros l Hr Hw Hnz Hmax.
  - simpl. rewrite Z.add_0_r, set_recursive_same. reflexivity.
  - apply Z.eqb_eq in Hw as Hw'.
    rewrite times_S, u_lock_eq, Hw', writer_recurse_run.
    + assert (Hlt : depth true (recursive l) < RECURSIVE_MAX)
        by (simpl; lia).
      destruct (add_step true (recursive l) Hr Hlt) as (He & Hd' & _).
      cbv zeta in He, Hd'. simpl in Hd'. rewrite He in *.
      rewrite IH; simpl.
      * f_equal. f_equal. unfold set_recursive; simpl. f_equal.
        change (multiplier true) with RECURSIVE_U. lia.
      * change (multiplier true) with 65536. depths. dlia.
      * exact Hw.
      * change (multiplier true) with 65536. depths. dlia.
      * change (multiplier true) with 65536 in *. depths. dlia.
    + intros _. apply writer_recurse_asserted_true; [exact Hr|].
      split; [exact Hw|]. split; [exact Hnz|]. simpl. lia.
Qed.

(** The object after [n] calls of [x_lock()] on an unowned lock and [m]
    recursive calls of [u_lock()]. *)
Lemma x_then_u_chain {T : Type} `{srw.ops T} (UNIV_DEBUG : bool)
    (id : os_thread_id_t) (n m : nat) (l : sux_lock T) :
  id <> 0 ->
  1 <= Z.of_nat n <= RECURSIVE_MAX ->
  Z.of_nat m <= RECURSIVE_MAX ->
  Free l ->
  (times n (x_lock UNIV_DEBUG false id) ;; times m (u_lock UNIV_DEBUG id)) l =
  Some (tt, acquired srw.wr_lock
              (Z.of_nat n + Z.of_nat m * RECURSIVE_U) id l).
Proof.
  intros Hid Hn Hm HF.
  rewrite bind_eq, (x_lock_chain _ _ _ _ Hid Hn HF).
  zconst. rewrite times_u_lock_recursive; simpl recursive; simpl writer.
  - reflexivity.
  - zconst. lia.
  - reflexivity.
  - lia.
  - depths. dlia.
Qed.

Lemma bind_assoc_run4 {T : Type} (a b c d : M T unit) (l : sux_lock T) :
  (a ;; b ;; c ;; d) l =
  match (a ;; b) l with
  | Some (_, l') => (c ;; d) l'
  | None => None
  end.
Proof.
  unfold bind. destruct (a l) as [[[] l1]|]; [|reflexivity].
  destruct (b l1) as [[[] l2]|]; reflexivity.
Qed.

(** X5: a nested chain.  One thread takes X [n] times on an unowned lock,
    then U [m] times recursively, and releases in the reverse order ([m]
    times [u_unlock()], then [n] times [x_unlock()]).  Every call returns in
    both builds, the lock ends unowned, and the underlying lock has
    received one [wr_lock] and, in the last release, one [wr_unlock]; after
    the [m] U releases the caller still holds X at depth [n]. *)
Theorem X5_nested_x_then_u_released_in_reverse {T : Type} `{srw.ops T}
    (UNIV_DEBUG : bool) (id : os_thread_id_t) (n m : nat) (l : sux_lock T) :
  id <> 0 ->
  1 <= Z.of_nat n <= RECURSIVE_MAX ->
  Z.of_nat m <= RECURSIVE_MAX ->
  Free l ->
  (exists l' : sux_lock T,
     (times n (x_lock UNIV_DEBUG false id) ;;
      times m (u_lock UNIV_DEBUG id) ;;
      times m (u_unlock UNIV_DEBUG false id)) l = Some (tt, l') /\
     writer l' = id /\ recursive l' = Z.of_nat n /\
     lock l' = snd (srw.wr_lock (lock l)))
  /\
  (exists l' : sux_lock T,
     (times n (x_lock UNIV_DEBUG false id) ;;
      times m (u_lock UNIV_DEBUG id) ;;
      times m (u_unlock UNIV_DEBUG false id) ;;
      times n (x_unlock UNIV_DEBUG false id)) l = Some (tt, l') /\
     Free l' /\
     lock l' = srw.wr_unlock (snd (srw.wr_lock (lock l)))).
Proof.
  intros Hid Hn Hm HF.
  pose proof (x_then_u_chain UNIV_DEBUG id n m l Hid Hn Hm HF) as Hup.
  assert (Hdown : times m (u_unlock UNIV_DEBUG false id)
                    (acquired srw.wr_lock
                       (Z.of_nat n + Z.of_nat m * RECURSIVE_U) id l) =
                  Some (tt, acquired srw.wr_lock (Z.of_nat n) id l)).
  { zconst. unfold u_unlock. rewrite times_unlock_partial; simpl recursive.
    - unfold acquired, set_recursive; simpl. do 3 f_equal.
      change (multiplier true) with 65536. zconst. lia.
    - exact Hid.
    - zconst. lia.
    - reflexivity.
    - depths; simpl. dlia.
    - change (multiplier true) with 65536. zconst. lia. }
  split.
  - rewrite bind_assoc_run, Hup, Hdown.
    eexists. split; [reflexivity|]. repeat split.
  - rewrite bind_assoc_run4, Hup, bind_eq, Hdown.
    zconst. unfold x_unlock. rewrite times_unlock_all.
    + eexists. split; [reflexivity|]. repeat split.
    + exact Hid.
    + lia.
    + zconst. lia.
    + reflexivity.
    + simpl. change (multiplier false) with 1. zconst. lia.
Qed.

(** Thread 7: X twice, U three times, released in reverse order. *)
Lemma X5_nested_x_then_u_released_in_reverse_witness :
  7 <> 0 /\ 1 <= Z.of_nat 2 <= RECURSIVE_MAX /\
  Z.of_nat 3 <= RECURSIVE_MAX /\ Free fresh /\
  (exists l' : sux_lock srw.recorder,
     (times 2 (x_lock (srw_ops := srw.recording (fun _ => true))
                 true false 7) ;;
      times 3 (u_lock (srw_ops := srw.recording (fun _ => true)) true 7) ;;
      times 3 (u_unlock (srw_ops := srw.recording (fun _ => true))
                 true false 7) ;;
      times 2 (x_unlock (srw_ops := srw.recording (fun _ => true))
                 true false 7)) fresh = Some (tt, l') /\
     Free l' /\ lock l' = [srw.Wr_lock; srw.Wr_unlock]).
Proof.
  assert (Hid : 7 <> 0) by discriminate.
  assert (Hn : 1 <= Z.of_nat 2 <= RECURSIVE_MAX) by (split; discriminate).
  assert (Hm : Z.of_nat 3 <= RECURSIVE_MAX) by discriminate.
  assert (HF : Free fresh) by (split; reflexivity).
  split; [exact Hid|]. split; [exact Hn|]. split; [exact Hm|].
  split; [exact HF|].
  exact (proj2 (X5_nested_x_then_u_released_in_reverse
                  (H := srw.recording (fun _ => true))
                  true 7 2 3 fresh Hid Hn Hm HF)).
Defined.

(** X6: the verb of the final release follows the mode of the last release
    call, not the mode in which the underlying lock was acquired.  After
    [n] calls of [x_lock()] on an unowned lock and [m >= 1] recursive calls
    of [u_lock()], releasing X first and U last passes every assertion of
    the debug build and leaves the lock unowned, and the underlying lock,
    which was acquired with [wr_lock], is released with [u_unlock]. *)
Theorem X6_last_release_chooses_the_verb {T : Type} `{srw.ops T}
    (UNIV_DEBUG : bool) (id : os_thread_id_t) (n m : nat) (l : sux_lock T) :
  id <> 0 ->
  1 <= Z.of_nat n <= RECURSIVE_MAX ->
  1 <= Z.of_nat m <= RECURSIVE_MAX ->
  Free l ->
  exists l' : sux_lock T,
    (times n (x_lock UNIV_DEBUG false id) ;;
     times m (u_lock UNIV_DEBUG id) ;;
     times n (x_unlock UNIV_DEBUG false id) ;;
     times m (u_unlock UNIV_DEBUG false id)) l = Some (tt, l') /\
    Free l' /\
    lock l' = srw.u_unlock (snd (srw.wr_lock (lock l))).
Proof.
  intros Hid Hn Hm HF.
  assert (Hm' : Z.of_nat m <= RECURSIVE_MAX) by lia.
  pose proof (x_then_u_chain UNIV_DEBUG id n m l Hid Hn Hm' HF) as Hup.
  assert (Hdown : times n (x_unlock UNIV_DEBUG false id)
                    (acquired srw.wr_lock
                       (Z.of_nat n + Z.of_nat m * RECURSIVE_U) id l) =
                  Some (tt, acquired srw.wr_lock
                              (Z.of_nat m * RECURSIVE_U) id l)).
  { zconst. unfold x_unlock. rewrite times_unlock_partial; simpl recursive.
    - unfold acquired, set_recursive; simpl. do 3 f_equal.
      change (multiplier false) with 1. zconst. lia.
    - exact Hid.
    - zconst. lia.
    - reflexivity.
    - depths; simpl. dlia.
    - change (multiplier false) with 1. zconst. lia. }
  rewrite bind_assoc_run4, Hup, bind_eq, Hdown.
  zconst. unfold u_unlock. rewrite times_unlock_all.
  - eexists. split; [reflexivity|]. repeat split.
  - exact Hid.
  - lia.
  - zconst. lia.
  - reflexivity.
  - reflexivity.
Qed.

(** Thread 7: X, U, then [x_unlock()] before [u_unlock()]. *)
Lemma X6_last_release_chooses_the_verb_witness :
  7 <> 0 /\ 1 <= Z.of_nat 1 <= RECURSIVE_MAX /\ Free fresh /\
  (exists l' : sux_lock srw.recorder,
     (times 1 (x_lock (srw_ops := srw.recording (fun _ => true))
                 true false 7) ;;
      times 1 (u_lock (srw_ops := srw.recording (fun _ => true)) true 7) ;;
      times 1 (x_unlock (srw_ops := srw.recording (fun _ => true))
                 true false 7) ;;
      times 1 (u_unlock (srw_ops := srw.recording (fun _ => true))
                 true false 7)) fresh = Some (tt, l') /\
     Free l' /\ lock l' = [srw.Wr_lock; srw.U_unlock]).
Proof.
  assert (Hid : 7 <> 0) by discriminate.
  assert (Hn : 1 <= Z.of_nat 1 <= RECURSIVE_MAX) by (split; discriminate).
  assert (HF : Free fresh) by (split; reflexivity).
  split; [exact Hid|]. split; [exact Hn|]. split; [exact HF|].
  exact (X6_last_release_chooses_the_verb
           (H := srw.recording (fun _ => true)) true 7 1 1 fresh
           Hid Hn Hn HF).
Defined.

(** ** Recursion across modes *)

(** X7: a thread that holds U only ([x_depth] zero) cannot take X by
    recursion in a debug build: [x_lock()], [x_lock_try()] and
    [x_lock_recursive()] all stop at the assertion of [writer_recurse] that
    the X depth is already nonzero.  In a release build [x_lock()] returns
    with X depth 1 and [have_x()] true, while the underlying lock was not
    called and so is still held in update mode. *)
Theorem X7_no_recursive_x_under_pure_u {T : Type} `{srw.ops T}
    (id : os_thread_id_t) (l : sux_lock T) :
  0 <= recursive l < 2 ^ 32 ->
  writer l = id ->
  x_depth (recursive l) = 0 ->
  (forall for_io : bool, x_lock true for_io id l = None) /\
  x_lock_try true id l = None /\
  x_lock_recursive true id l = None /\
  x_lock false false id l =
    Some (tt, set_recursive (recursive l + RECURSIVE_X) l) /\
  x_depth (recursive l + RECURSIVE_X) = 1 /\
  u_depth (recursive l + RECURSIVE_X) = u_depth (recursive l) /\
  have_x false id (set_recursive (recursive l + RECURSIVE_X) l) =
    Some (true, set_recursive (recursive l + RECURSIVE_X) l).
Proof.
  intros Hr Hw Hx. apply Z.eqb_eq in Hw as Hw'.
  assert (Hrec : writer_recurse true false id l = None).
  { rewrite writer_recurse_eq. unfold writer_recurse_asserted.
    rewrite rec_X, Hx, andb_false_r. reflexivity. }
  assert (He : uint32_t (recursive l + RECURSIVE_X) = recursive l + RECURSIVE_X)
    by (revert Hx; depths; dlia).
  assert (Hd : x_depth (recursive l + RECURSIVE_X) = 1)
    by (revert Hx; depths; dlia).
  repeat apply conj.
  - intros for_io. rewrite x_lock_eq, Hw'.
    destruct for_io; [reflexivity | exact Hrec].
  - rewrite x_lock_try_eq, Hw', Hrec. reflexivity.
  - exact Hrec.
  - rewrite x_lock_eq, Hw'. simpl.
    rewrite writer_recurse_run by discriminate.
    change (multiplier false) with RECURSIVE_X. rewrite He. reflexivity.
  - exact Hd.
  - revert Hx. depths. dlia.
  - rewrite have_x_eq. simpl writer. simpl recursive.
    assert (Hid : (id =? writer l) = true) by (apply Z.eqb_eq; congruence).
    rewrite Hid. simpl. rewrite rec_X, Hd. reflexivity.
Qed.

(** Thread 7 holds U at depth 1. *)
Lemma X7_no_recursive_x_under_pure_u_witness :
  x_lock (srw_ops := srw.recording (fun _ => true)) true false 7
    (Sux_lock [srw.U_lock] 7 65536 0 None) = None /\
  x_lock (srw_ops := srw.recording (fun _ => true)) false false 7
    (Sux_lock [srw.U_lock] 7 65536 0 None)
  = Some (tt, Sux_lock [srw.U_lock] 7 65537 0 None).
Proof.
  assert (Hr : 0 <= recursive (Sux_lock [srw.U_lock] 7 65536 0 None)
               < 2 ^ 32) by (split; [discriminate | reflexivity]).
  destruct (X7_no_recursive_x_under_pure_u
              (H := srw.recording (fun _ => true)) 7
              (Sux_lock [srw.U_lock] 7 65536 0 None) Hr eq_refl eq_refl)
    as (Hdbg & _ & _ & Hrel & _).
  split; [exact (Hdbg false) | exact Hrel].
Defined.

(** X8: [x_lock_upgraded()] is the dedicated entry point of each of its
    three cases, except that it never counts a blocking wait.  For an X
    holder it is [x_lock_recursive()]; for a holder of U only it is
    [u_x_upgrade()] with [waits] left as it was; for any other thread it is
    [x_lock()] with [waits] left as it was.  This includes the assertions:
    in each case both sides stop in a debug build on the same objects. *)
Theorem X8_x_lock_upgraded_is_the_dedicated_call {T : Type} `{srw.ops T}
    (UNIV_DEBUG : bool) (id : os_thread_id_t) (l : sux_lock T) :
  (writer l = id -> x_depth (recursive l) <> 0 ->
   x_lock_upgraded UNIV_DEBUG id l =
   match x_lock_recursive UNIV_DEBUG id l with
   | Some (_, l') => Some (false, l')
   | None => None
   end)
  /\
  (writer l = id -> x_depth (recursive l) = 0 ->
   x_lock_upgraded UNIV_DEBUG id l =
   match u_x_upgrade UNIV_DEBUG id l with
   | Some (_, l') => Some (true, set_waits (waits l) l')
   | None => None
   end)
  /\
  (writer l <> id ->
   x_lock_upgraded UNIV_DEBUG id l =
   match x_lock UNIV_DEBUG false id l with
   | Some (_, l') => Some (false, set_waits (waits l) l')
   | None => None
   end).
Proof.
  rewrite x_lock_upgraded_eq, x_lock_recursive_eq, u_x_upgrade_eq, x_lock_eq.
  rewrite x_depth_land.
  unfold u_x_upgrade_asserted. rewrite rec_X.
  repeat apply conj.
  - intros Hw Hx. apply Z.eqb_eq in Hw. rewrite Hw.
    apply x_depth_nonzero in Hx as Hnz.
    apply to_bool_true in Hx, Hnz. rewrite Hx, Hnz, andb_false_r.
    reflexivity.
  - intros Hw Hx. apply Z.eqb_eq in Hw as Hw'. rewrite Hw'.
    assert (Hid : (id =? writer l) = true) by (apply Z.eqb_eq; congruence).
    apply to_bool_false in Hx. rewrite Hx, Hid. simpl.
    rewrite andb_true_r.
    destruct (UNIV_DEBUG && negb (to_bool (recursive l))); [reflexivity|].
    unfold acquired, set_waits, set_recursive, set_lock; simpl.
    reflexivity.
  - intros Hw. apply Z.eqb_neq in Hw. rewrite Hw.
    destruct (UNIV_DEBUG && negb (unowned l)); [reflexivity|].
    unfold acquired, set_waits, set_recursive, set_lock, set_writer; simpl.
    reflexivity.
Qed.

(** Thread 7 holds U at depth 2 over a lock that reports a wait. *)
Lemma X8_x_lock_upgraded_is_the_dedicated_call_witness :
  x_lock_upgraded (srw_ops := srw.recording (fun _ => false)) true 7
    (Sux_lock [srw.U_lock] 7 131072 0 None)
  = Some (true, Sux_lock [srw.U_lock; srw.U_wr_upgrade] 7 2 0 None) /\
  u_x_upgrade (srw_ops := srw.recording (fun _ => false)) true 7
    (Sux_lock [srw.U_lock] 7 131072 0 None)
  = Some (tt, Sux_lock [srw.U_lock; srw.U_wr_upgrade] 7 2 1 None).
Proof.
  split; [|reflexivity].
  exact (proj1 (proj2 (X8_x_lock_upgraded_is_the_dedicated_call
                         (H := srw.recording (fun _ => false)) true 7
                         (Sux_lock [srw.U_lock] 7 131072 0 None)))
           eq_refl eq_refl).
Defined.

(** ** Depth bounds *)

(** X9: the depth 65536 is not representable.  A recursive acquisition by
    the owner at depth [RECURSIVE_MAX] of the requested mode stops at the
    assertion in a debug build.  In a release build the X counter carries
    into the U counter (X depth 0, U depth plus one modulo 2^16), and the U
    counter wraps around to 0 and leaves the X depth alone; at U depth
    65535 and X depth 0 a further [u_lock()] makes [recursive] zero while
    [writer] keeps the caller. *)
Theorem X9_recursion_beyond_the_maximum {T : Type} `{srw.ops T}
    (id : os_thread_id_t) (l : sux_lock T) :
  0 <= recursive l < 2 ^ 32 ->
  writer l = id ->
  (x_depth (recursive l) = RECURSIVE_MAX ->
   x_lock true false id l = None /\
   exists l' : sux_lock T,
     x_lock false false id l = Some (tt, l') /\
     writer l' = id /\ lock l' = lock l /\
     x_depth (recursive l') = 0 /\
     u_depth (recursive l') = (u_depth (recursive l) + 1) mod 2 ^ 16)
  /\
  (u_depth (recursive l) = RECURSIVE_MAX ->
   u_lock true id l = None /\
   exists l' : sux_lock T,
     u_lock false id l = Some (tt, l') /\
     writer l' = id /\ lock l' = lock l /\
     u_depth (recursive l') = 0 /\
     x_depth (recursive l') = x_depth (recursive l) /\
     (x_depth (recursive l) = 0 -> recursive l' = 0)).
Proof.
  intros Hr Hw. apply Z.eqb_eq in Hw as Hw'. split.
  - intros Hx. split.
    + rewrite x_lock_eq, Hw'. simpl. rewrite writer_recurse_eq.
      unfold writer_recurse_asserted. rewrite rec_X, Hx.
      rewrite andb_false_r. reflexivity.
    + rewrite x_lock_eq, Hw'. simpl.
      rewrite writer_recurse_run by discriminate.
      eexists. split; [reflexivity|]. simpl.
      change (multiplier false) with 1.
      repeat split; depths; dlia.
  - intros Hu. split.
    + rewrite u_lock_eq, Hw'. rewrite writer_recurse_eq.
      unfold writer_recurse_asserted. rewrite (rec_U _ Hr), Hu.
      rewrite andb_false_r. reflexivity.
    + rewrite u_lock_eq, Hw'.
      rewrite writer_recurse_run by discriminate.
      eexists. split; [reflexivity|]. simpl.
      change (multiplier true) with 65536.
      repeat split; try intros Hx0; depths; dlia.
Qed.

(** Thread 7 at U depth 65535 takes U once more. *)
Lemma X9_recursion_beyond_the_maximum_witness :
  u_lock (srw_ops := srw.recording (fun _ => true)) true 7
    (Sux_lock [srw.U_lock] 7 4294901760 0 None) = None /\
  exists l' : sux_lock srw.recorder,
    u_lock (srw_ops := srw.recording (fun _ => true)) false 7
      (Sux_lock [srw.U_lock] 7 4294901760 0 None) = Some (tt, l') /\
    writer l' = 7 /\ lock l' = [srw.U_lock] /\
    u_depth (recursive l') = 0 /\
    x_depth (recursive l') = 0 /\
    (x_depth 4294901760 = 0 -> recursive l' = 0).
Proof.
  assert (Hr : 0 <= recursive (Sux_lock [srw.U_lock] 7 4294901760 0 None)
               < 2 ^ 32) by (split; [discriminate | reflexivity]).
  exact (proj2 (X9_recursion_beyond_the_maximum
                  (H := srw.recording (fun _ => true)) 7
                  (Sux_lock [srw.U_lock] 7 4294901760 0 None) Hr eq_refl)
           eq_refl).
Defined.

(** X10: a release of a mode whose depth is zero, by the owner, stops at
    the assertion in a debug build.  In a release build it borrows from the
    other counter: [x_unlock()] at X depth 0 and U depth [d >= 1] leaves X
    depth 65535 and U depth [d - 1]; [u_unlock()] at U depth 0 and X depth
    [x >= 1] wraps to U depth 65535 with the X depth unchanged.  Neither
    calls the underlying lock nor clears [writer]. *)
Theorem X10_release_below_zero {T : Type} `{srw.ops T}
    (claim : bool) (id : os_thread_id_t) (l : sux_lock T) :
  0 <= recursive l < 2 ^ 32 ->
  writer l = id ->
  recursive l <> 0 ->
  (x_depth (recursive l) = 0 ->
   x_unlock true claim id l = None /\
   exists l' : sux_lock T,
     x_unlock false claim id l = Some (tt, l') /\
     writer l' = id /\ lock l' = lock l /\
     x_depth (recursive l') = RECURSIVE_MAX /\
     u_depth (recursive l') = u_depth (recursive l) - 1)
  /\
  (u_depth (recursive l) = 0 ->
   u_unlock true claim id l = None /\
   exists l' : sux_lock T,
     u_unlock false claim id l = Some (tt, l') /\
     writer l' = id /\ lock l' = lock l /\
     u_depth (recursive l') = RECURSIVE_MAX /\
     x_depth (recursive l') = x_depth (recursive l)).
Proof.
  intros Hr Hw Hnz. split.
  - intros Hx. unfold x_unlock. split.
    + rewrite u_or_x_unlock_eq. unfold u_or_x_unlock_asserted.
      rewrite rec_X, Hx, andb_false_r. reflexivity.
    + rewrite u_or_x_unlock_eq. cbv zeta. cbn [andb].
      assert (Hb : to_bool (uint32_t (recursive l - multiplier false)) = true).
      { apply to_bool_true. change (multiplier false) with 1.
        revert Hx. depths. dlia. }
      rewrite Hb. eexists. split; [reflexivity|]. simpl.
      change (multiplier false) with 1.
      repeat split; try exact Hw; revert Hx; depths; dlia.
  - intros Hu. unfold u_unlock. split.
    + rewrite u_or_x_unlock_eq. unfold u_or_x_unlock_asserted.
      rewrite (rec_U _ Hr), Hu, andb_false_r. reflexivity.
    + rewrite u_or_x_unlock_eq. cbv zeta. cbn [andb].
      assert (Hb : to_bool (uint32_t (recursive l - multiplier true)) = true).
      { apply to_bool_true. change (multiplier true) with 65536.
        revert Hu. depths. dlia. }
      rewrite Hb. eexists. split; [reflexivity|]. simpl.
      change (multiplier true) with 65536.
      repeat split; try exact Hw; revert Hu; depths; dlia.
Qed.

(** Thread 7 holds U at depth 1 and calls [x_unlock()]. *)
Lemma X10_release_below_zero_witness :
  x_unlock (srw_ops := srw.recording (fun _ => true)) true false 7
    (Sux_lock [srw.U_lock] 7 65536 0 None) = None /\
  exists l' : sux_lock srw.recorder,
    x_unlock (srw_ops := srw.recording (fun _ => true)) false false 7
      (Sux_lock [srw.U_lock] 7 65536 0 None) = Some (tt, l') /\
    writer l' = 7 /\ lock l' = [srw.U_lock] /\
    x_depth (recursive l') = RECURSIVE_MAX /\
    u_depth (recursive l') = u_depth 65536 - 1.
Proof.
  assert (Hr : 0 <= recursive (Sux_lock [srw.U_lock] 7 65536 0 None)
               < 2 ^ 32) by (split; [discriminate | reflexivity]).
  assert (Hnz : recursive (Sux_lock [srw.U_lock] 7 65536 0 None) <> 0)
    by discriminate.
  exact (proj1 (X10_release_below_zero
                  (H := srw.recording (fun _ => true)) false 7
                  (Sux_lock [srw.U_lock] 7 65536 0 None) Hr eq_refl Hnz)
           eq_refl).
Defined.

(** ** The shared mode and the debug reader set *)

#[local] Set Warnings "-clear-no-such-hyp".

Lemma have_s_eq {T : Type} (id : os_thread_id_t) (l : sux_lock T) :
  have_s id l = Some (holds_s id l, l).
Proof.
  unfold have_s, holds_s, bind, get, ret.
  destruct (readers l); reflexivity.
Qed.

(** The assertions of [s_lock] in terms of what the caller holds. *)
Lemma s_lock_asserted_true {T : Type} (id : os_thread_id_t) (l : sux_lock T) :
  holds_s id l = false ->
  (writer l = id -> recursive l <> 0 /\ x_depth (recursive l) = 0) ->
  s_lock_asserted id l = true.
Proof.
  intros Hs Hx. unfold s_lock_asserted. rewrite Hs, andb_true_r.
  destruct (id =? writer l) eqn:Hw; [|reflexivity].
  apply Z.eqb_eq in Hw. destruct (Hx (eq_sym Hw)) as (Hnz & Hx0).
  apply to_bool_true in Hnz. apply to_bool_false in Hx0.
  rewrite rec_X, Hnz, Hx0. reflexivity.
Qed.

(** X11: [s_lock()] followed by [s_unlock()] by the same thread.  In a
    release build nothing is required and only the underlying lock (one
    [rd_lock], one [rd_unlock]) and possibly [waits] change.  In a debug
    build the caller must hold neither S nor X; both calls then return,
    [writer] and [recursive] are untouched, and the reader set is back to
    its former contents, except that the set that was allocated on demand
    stays allocated, empty. *)
Theorem X11_s_lock_s_unlock_round_trip {T : Type} `{srw.ops T}
    (UNIV_DEBUG : bool) (id : os_thread_id_t) (l : sux_lock T) :
  (UNIV_DEBUG = true ->
   holds_s id l = false /\
   (writer l = id -> recursive l <> 0 /\ x_depth (recursive l) = 0)) ->
  exists l' : sux_lock T,
    (s_lock UNIV_DEBUG id ;; s_unlock UNIV_DEBUG id) l = Some (tt, l') /\
    writer l' = writer l /\
    recursive l' = recursive l /\
    lock l' = srw.rd_unlock (snd (srw.rd_lock (lock l))) /\
    waits l' = (if fst (srw.rd_lock (lock l)) then waits l
                else uint32_t (waits l + 1)) /\
    readers l' =
      (if UNIV_DEBUG
       then Some (match readers l with Some r => r | None => ∅ end)
       else readers l).
Proof.
  intros Hpre. rewrite bind_eq, s_lock_eq.
  destruct UNIV_DEBUG.
  - destruct (Hpre eq_refl) as (Hs & Hx).
    rewrite (s_lock_asserted_true id l Hs Hx), s_unlock_eq.
    unfold registered, acquired, set_readers, set_lock; simpl.
    match goal with
    | |- context [bool_decide ?P] => destruct (bool_decide P) eqn:Hin
    end.
    + eexists. split; [reflexivity|]. simpl. repeat split.
      f_equal. unfold holds_s in Hs.
      destruct (readers l) as [r|].
      * apply bool_decide_eq_false in Hs. set_solver.
      * set_solver.
    + exfalso. apply bool_decide_eq_false in Hin. set_solver.
  - rewrite s_unlock_eq. eexists. split; [reflexivity|]. repeat split.
Qed.

(** Thread 7 takes and releases S on a new lock in a debug build. *)
Lemma X11_s_lock_s_unlock_round_trip_witness :
  exists l' : sux_lock srw.recorder,
    (s_lock (srw_ops := srw.recording (fun _ => true)) true 7 ;;
     s_unlock (srw_ops := srw.recording (fun _ => true)) true 7) fresh
      = Some (tt, l') /\
    writer l' = 0 /\ recursive l' = 0 /\
    lock l' = [srw.Rd_lock; srw.Rd_unlock] /\
    waits l' = 0 /\
    readers l' = Some ∅.
Proof.
  refine (X11_s_lock_s_unlock_round_trip
            (H := srw.recording (fun _ => true)) true 7 fresh _).
  intros _. split; [reflexivity|]. intros Hw. discriminate Hw.
Defined.

(** X12: S is not recursive, and the debug build enforces it.  A thread
    that is in the reader set cannot take S again: [s_lock()] stops, and so
    does [s_lock_try()] when the underlying lock grants the read lock; in
    particular two calls of [s_lock()] in a row never return.  A thread
    that is not in the reader set cannot call [s_unlock()], and a thread
    that holds X cannot take S. *)
Theorem X12_s_mode_misuse_stops_debug_build {T : Type} `{srw.ops T}
    (id : os_thread_id_t) (l : sux_lock T) :
  (holds_s id l = true ->
   s_lock true id l = None /\
   (fst (srw.rd_lock_try (lock l)) = true -> s_lock_try true id l = None))
  /\
  (s_lock true id ;; s_lock true id) l = None
  /\
  (holds_s id l = false -> s_unlock true id l = None)
  /\
  (writer l = id -> x_depth (recursive l) <> 0 -> s_lock true id l = None).
Proof.
  repeat apply conj.
  - intros Hs. split.
    + rewrite s_lock_eq. unfold s_lock_asserted.
      rewrite Hs, andb_false_r. reflexivity.
    + intros Hgrant. rewrite s_lock_try_eq. cbv zeta.
      rewrite Hgrant, Hs. reflexivity.
  - rewrite bind_eq, s_lock_eq.
    destruct (s_lock_asserted id l); [|reflexivity].
    rewrite s_lock_eq. unfold s_lock_asserted at 1.
    assert (Hs : holds_s id (registered id
                   (acquired srw.rd_lock (recursive l) (writer l) l)) = true).
    { unfold holds_s, registered; simpl.
      apply bool_decide_eq_true. set_solver. }
    rewrite Hs, andb_false_r. reflexivity.
  - intros Hs. rewrite s_unlock_eq. unfold holds_s in Hs.
    destruct (readers l); [rewrite Hs|]; reflexivity.
  - intros Hw Hx. rewrite s_lock_eq. unfold s_lock_asserted.
    assert (Hid : (id =? writer l) = true) by (apply Z.eqb_eq; congruence).
    apply to_bool_true in Hx. rewrite Hid, rec_X, Hx, andb_false_r.
    reflexivity.
Qed.

(** Thread 7 calls [s_unlock()] on a new lock. *)
Lemma X12_s_mode_misuse_stops_debug_build_witness :
  holds_s 7 fresh = false /\
  s_unlock (srw_ops := srw.recording (fun _ => true)) true 7 fresh = None.
Proof.
  split; [reflexivity|].
  exact (proj1 (proj2 (proj2 (X12_s_mode_misuse_stops_debug_build
                                (H := srw.recording (fun _ => true))
                                7 fresh))) eq_refl).
Defined.

(** X13: in a debug build [have_s()] tells who holds S.  After a call of
    [s_lock()] that returns, or of [s_lock_try()] that returns true, it is
    true for the caller; after a call of [s_unlock()] that returns it is
    false for the caller; and none of the three changes its value for any
    other thread. *)
Theorem X13_have_s_follows_s_lock_and_s_unlock {T : Type} `{srw.ops T}
    (id other : os_thread_id_t) (l l' : sux_lock T) :
  other <> id ->
  (s_lock true id l = Some (tt, l') ->
   have_s id l' = Some (true, l') /\
   have_s other l' = Some (holds_s other l, l'))
  /\
  (s_lock_try true id l = Some (true, l') ->
   have_s id l' = Some (true, l') /\
   have_s other l' = Some (holds_s other l, l'))
  /\
  (s_unlock true id l = Some (tt, l') ->
   have_s id l' = Some (false, l') /\
   have_s other l' = Some (holds_s other l, l')).
Proof.
  intros Hne. rewrite !have_s_eq.
  repeat apply conj.
  - rewrite s_lock_eq. destruct (s_lock_asserted id l); [|discriminate].
    intros Hrun. injection Hrun as <-. unfold holds_s, registered; simpl.
    split; f_equal; f_equal.
    + apply bool_decide_eq_true. set_solver.
    + destruct (readers l) as [r|];
        [apply bool_decide_ext | apply bool_decide_eq_false]; set_solver.
  - rewrite s_lock_try_eq. cbv zeta.
    destruct (fst (srw.rd_lock_try (lock l))); [|discriminate].
    destruct (holds_s id l); [discriminate|].
    intros Hrun. injection Hrun as <-. unfold holds_s, registered; simpl.
    split; f_equal; f_equal.
    + apply bool_decide_eq_true. set_solver.
    + destruct (readers l) as [r|];
        [apply bool_decide_ext | apply bool_decide_eq_false]; set_solver.
  - rewrite s_unlock_eq. unfold holds_s.
    destruct (readers l) as [r|]; [|discriminate].
    destruct (bool_decide (id ∈ r)); [|discriminate].
    intros Hrun. injection Hrun as <-. simpl.
    split; f_equal; f_equal.
    + apply bool_decide_eq_false. set_solver.
    + apply bool_decide_ext. set_solver.
Qed.

(** Thread 7 takes S on a new lock; thread 8 holds nothing. *)
Lemma X13_have_s_follows_s_lock_and_s_unlock_witness :
  8 <> 7 /\
  have_s 7 (Sux_lock [srw.Rd_lock] 0 0 0 (Some ({[ 7 ]} ∪ ∅)))
    = Some (true, Sux_lock [srw.Rd_lock] 0 0 0 (Some ({[ 7 ]} ∪ ∅))) /\
  have_s 8 (Sux_lock [srw.Rd_lock] 0 0 0 (Some ({[ 7 ]} ∪ ∅)))
    = Some (holds_s 8 fresh,
            Sux_lock [srw.Rd_lock] 0 0 0 (Some ({[ 7 ]} ∪ ∅))).
Proof.
  assert (Hne : 8 <> 7) by discriminate.
  split; [exact Hne|].
  exact (proj1 (X13_have_s_follows_s_lock_and_s_unlock
                  (H := srw.recording (fun _ => true)) 7 8 fresh
                  (Sux_lock [srw.Rd_lock] 0 0 0 (Some ({[ 7 ]} ∪ ∅))) Hne)
           eq_refl).
Defined.

(** ** What a call leaves alone *)

(** X14: the shared mode and the U/X modes keep separate books.  A call of
    [s_lock], [s_lock_try] or [s_unlock] that returns never changes
    [writer] or [recursive]; a call of any other entry point that returns
    never changes the debug reader set. *)
Theorem X14_shared_and_owner_state_are_separate {T : Type} `{srw.ops T}
    (UNIV_DEBUG : bool) (e : entry_point) (id : os_thread_id_t)
    (l l' : sux_lock T) (r : option bool) :
  call UNIV_DEBUG e id l = Some (r, l') ->
  if shared_mode e
  then writer l' = writer l /\ recursive l' = recursive l
  else readers l' = readers l.
Proof.
  intros Hrun.
  destruct e as [| |for_io| | | | |for_io| | |claim|claim|];
    call_eq Hrun; unfold shared_mode;
    cases_in Hrun; try discriminate Hrun;
    injection Hrun as <- <-;
    unfold acquired, registered; simpl; try split; reflexivity.
Qed.

(** Thread 7 takes S while thread 9 holds X at depth 3. *)
Lemma X14_shared_and_owner_state_are_separate_witness :
  call (H := srw.recording (fun _ => true)) false S_lock 7
    (Sux_lock [srw.Wr_lock] 9 3 0 None)
  = Some (None, Sux_lock [srw.Wr_lock; srw.Rd_lock] 9 3 0 None) /\
  writer (Sux_lock [srw.Wr_lock; srw.Rd_lock] 9 3 0 None) = 9 /\
  recursive (Sux_lock [srw.Wr_lock; srw.Rd_lock] 9 3 0 None) = 3.
Proof.
  split; [reflexivity|].
  exact (X14_shared_and_owner_state_are_separate
           (H := srw.recording (fun _ => true)) false S_lock 7
           (Sux_lock [srw.Wr_lock] 9 3 0 None)
           (Sux_lock [srw.Wr_lock; srw.Rd_lock] 9 3 0 None) None eq_refl).
Defined.

(** X15: a call of an entry point makes at most one call to the
    underlying lock, and only one of the calls listed for it in [verbs]:
    over a recording lock, however it answers, the record after a call that
    returns is the record before, or the record before followed by one such
    call. *)
Theorem X15_at_most_one_underlying_call
    (answer : list srw.verb -> bool) (UNIV_DEBUG : bool) (e : entry_point)
    (id : os_thread_id_t) (l l' : sux_lock srw.recorder) (r : option bool) :
  call (H := srw.recording answer) UNIV_DEBUG e id l = Some (r, l') ->
  lock l' = lock l \/
  exists v : srw.verb, In v (verbs e) /\ lock l' = lock l ++ [v].
Proof.
  intros Hrun.
  destruct e as [| |for_io| | | | |for_io| | |claim|claim|];
    call_eq Hrun; unfold verbs;
    unfold acquired, release in Hrun;
    unfold srw.rd_lock, srw.u_lock, srw.wr_lock, srw.u_wr_upgrade,
      srw.rd_lock_try, srw.u_lock_try, srw.wr_lock_try, srw.rd_unlock,
      srw.u_unlock, srw.wr_unlock, srw.recording, srw.asked, srw.told in Hrun;
    cbn [fst snd] in Hrun;
    cases_in Hrun; try discriminate Hrun;
    injection Hrun as <- <-;
    unfold registered; simpl;
    first [ left; reflexivity
          | right; eexists; split; [left; reflexivity | reflexivity]
          | right; eexists; split; [right; left; reflexivity | reflexivity]
          | destruct claim; right; eexists;
            split; [left; reflexivity | reflexivity] ].
Qed.

(** [x_lock_upgraded()] by a thread that holds U asks for the upgrade. *)
Lemma X15_at_most_one_underlying_call_witness :
  lock (Sux_lock [srw.U_lock; srw.U_wr_upgrade] 7 1 0 None)
    = lock (Sux_lock [srw.U_lock] 7 65536 0 None) \/
  exists v : srw.verb,
    In v (verbs X_lock_upgraded) /\
    lock (Sux_lock [srw.U_lock; srw.U_wr_upgrade] 7 1 0 None)
      = lock (Sux_lock [srw.U_lock] 7 65536 0 None) ++ [v].
Proof.
  exact (X15_at_most_one_underlying_call (fun _ => true) true
           X_lock_upgraded 7 (Sux_lock [srw.U_lock] 7 65536 0 None)
           (Sux_lock [srw.U_lock; srw.U_wr_upgrade] 7 1 0 None)
           (Some true) eq_refl).
Defined.

(** X16: in a debug build an owned lock gets no new owner through an
    acquisition.  When a call that returns changes a nonzero [writer], it
    is a release that made [recursive] zero and cleared [writer], or it is
    [claim_ownership()], which installs the caller. *)
Theorem X16_owner_changes_only_by_release_or_claim {T : Type} `{srw.ops T}
    (e : entry_point) (id : os_thread_id_t) (l l' : sux_lock T)
    (r : option bool) :
  call true e id l = Some (r, l') ->
  writer l <> 0 ->
  writer l' <> writer l ->
  (writer l' = 0 /\ recursive l' = 0 /\
   exists claim : bool, e = U_unlock claim \/ e = X_unlock claim)
  \/
  (writer l' = id /\ e = Claim_ownership).
Proof.
  intros Hrun Hown Hchg.
  destruct e as [| |for_io| | | | |for_io| | |claim|claim|];
    call_eq Hrun; unfold unowned in Hrun;
    cases_in Hrun; try discriminate Hrun;
    injection Hrun as <- <-;
    unfold acquired, registered in *; simpl in *;
    reflect_tests; try congruence.
  all: first [ right; split; reflexivity
             | left; split; [reflexivity|]; split; [assumption|];
               exists claim; first [left; reflexivity | right; reflexivity] ].
Qed.

(** Thread 7 releases its last X hold. *)
Lemma X16_owner_changes_only_by_release_or_claim_witness :
  call (H := srw.recording (fun _ => true)) true (X_unlock false) 7
    (Sux_lock [srw.Wr_lock] 7 1 0 None)
  = Some (None, Sux_lock [srw.Wr_lock; srw.Wr_unlock] 0 0 0 None) /\
  ((writer (Sux_lock [srw.Wr_lock; srw.Wr_unlock] 0 0 0 None) = 0 /\
    recursive (Sux_lock [srw.Wr_lock; srw.Wr_unlock] 0 0 0 None) = 0 /\
    exists claim : bool,
      X_unlock false = U_unlock claim \/ X_unlock false = X_unlock claim)
   \/
   (writer (Sux_lock [srw.Wr_lock; srw.Wr_unlock] 0 0 0 None) = 7 /\
    X_unlock false = Claim_ownership)).
Proof.
  split; [reflexivity|].
  refine (X16_owner_changes_only_by_release_or_claim
            (H := srw.recording (fun _ => true)) (X_unlock false) 7
            (Sux_lock [srw.Wr_lock] 7 1 0 None)
            (Sux_lock [srw.Wr_lock; srw.Wr_unlock] 0 0 0 None) None
            eq_refl _ _); discriminate.
Defined.

(** ** Debug probes, adoption and the life cycle *)

(** X17: [not_recursive()] tells whether exactly one acquisition is held.
    On a held lock ([recursive] nonzero) it returns, without changing the
    object, whether the U depth and the X depth add up to 1; on a lock that
    is not held it stops at its assertion in a debug build. *)
Theorem X17_not_recursive_means_total_depth_one {T : Type}
    (UNIV_DEBUG : bool) (l : sux_lock T) :
  0 <= recursive l < 2 ^ 32 ->
  (recursive l <> 0 ->
   exists b : bool,
     not_recursive UNIV_DEBUG l = Some (b, l) /\
     (b = true <-> x_depth (recursive l) + u_depth (recursive l) = 1))
  /\
  (recursive l = 0 -> not_recursive true l = None).
Proof.
  intros Hr. unfold not_recursive. split.
  - intros Hnz. rewrite bind_eq, ut_ad_eq. unfold get at 1.
    apply to_bool_true in Hnz as Hb. rewrite Hb.
    assert (Hrun : (if UNIV_DEBUG then Some (tt, l) else Some (tt, l))
                   = Some (tt, l)) by (destruct UNIV_DEBUG; reflexivity).
    rewrite Hrun. eexists. split; [reflexivity|].
    rewrite orb_true_iff, !Z.eqb_eq. depths. dlia.
  - intros Hz. rewrite bind_eq, ut_ad_eq. unfold get at 1.
    rewrite Hz. reflexivity.
Qed.

(** One U hold and one X hold are two acquisitions. *)
Lemma X17_not_recursive_means_total_depth_one_witness :
  exists b : bool,
    not_recursive true (Sux_lock [srw.Wr_lock] 7 65537 0 None)
      = Some (b, Sux_lock [srw.Wr_lock] 7 65537 0 None) /\
    (b = true <-> x_depth 65537 + u_depth 65537 = 1).
Proof.
  refine (proj1 (X17_not_recursive_means_total_depth_one true
                   (Sux_lock [srw.Wr_lock] 7 65537 0 None) _) _).
  - split; [discriminate | reflexivity].
  - discriminate.
Defined.

(** X18: [claim_ownership()] on a held lock makes the caller the owner and
    changes nothing else: afterwards [have_u_or_x()] is true for the
    caller and false for every other thread, the former owner included, and
    the depths and the underlying lock are as before.  On a lock that
    nobody owns it stops at its assertion in a debug build; in a release
    build it records the caller as owner of a lock with [recursive] zero. *)
Theorem X18_claim_ownership_adopts_the_lock {T : Type} `{srw.ops T}
    (UNIV_DEBUG : bool) (id : os_thread_id_t) (l : sux_lock T) :
  (writer l <> 0 ->
   recursive l <> 0 ->
   claim_ownership UNIV_DEBUG id l = Some (tt, set_writer id l) /\
   have_u_or_x UNIV_DEBUG id (set_writer id l)
     = Some (true, set_writer id l) /\
   (forall other : os_thread_id_t,
       other <> id ->
       have_u_or_x UNIV_DEBUG other (set_writer id l)
         = Some (false, set_writer id l)))
  /\
  (writer l = 0 ->
   claim_ownership true id l = None /\
   claim_ownership false id l = Some (tt, set_writer id l)).
Proof.
  rewrite !claim_ownership_eq. split.
  - intros Hw Hr.
    apply Z.eqb_neq in Hw. rewrite Hw, andb_false_r.
    split; [reflexivity|]. split.
    + rewrite have_u_or_x_eq. simpl. rewrite Z.eqb_refl.
      apply to_bool_true in Hr. rewrite Hr, andb_false_r. reflexivity.
    + intros other Hne. rewrite have_u_or_x_eq. simpl.
      apply Z.eqb_neq in Hne. rewrite Hne. reflexivity.
  - intros Hw. rewrite Hw. split; reflexivity.
Qed.

(** Thread 8 adopts the X lock that thread 7 holds at depth 2. *)
Lemma X18_claim_ownership_adopts_the_lock_witness :
  claim_ownership true 8 (Sux_lock [srw.Wr_lock] 7 2 0 None)
  = Some (tt, Sux_lock [srw.Wr_lock] 8 2 0 None) /\
  have_u_or_x true 7 (Sux_lock [srw.Wr_lock] 8 2 0 None)
  = Some (false, Sux_lock [srw.Wr_lock] 8 2 0 None).
Proof.
  destruct (proj1 (X18_claim_ownership_adopts_the_lock
                     (H := srw.recording (fun _ => true)) true 8
                     (Sux_lock [srw.Wr_lock] 7 2 0 None)))
    as (Hclaim & _ & Hother); try discriminate.
  split; [exact Hclaim|]. apply Hother. discriminate.
Defined.

Lemma init_eq {T : Type} (UNIV_DEBUG : bool) (lock_init : T -> T)
    (l : sux_lock T) :
  init UNIV_DEBUG lock_init l =
  if UNIV_DEBUG
     && negb (negb (to_bool (writer l)) && negb (to_bool (recursive l))
              && negb (to_bool (waits l))
              && negb (bool_decide (is_Some (readers l))))
  then None
  else Some (tt, set_lock (lock_init (lock l)) l).
Proof.
  unfold init, lock_release, ut_ad, bind, ret, get, modify, abort, set_lock.
  expose l. destruct UNIV_DEBUG; simpl; branch; congruence.
Qed.

Lemma free_eq {T : Type} (UNIV_DEBUG : bool) (lock_destroy : T -> T)
    (l : sux_lock T) :
  free UNIV_DEBUG lock_destroy l =
  if UNIV_DEBUG
  then if negb (to_bool (writer l)) && negb (to_bool (recursive l))
          && match readers l with
             | Some r => bool_decide (r = ∅)
             | None => true
             end
       then Some (tt, set_lock (lock_destroy (lock l)) (set_readers None l))
       else None
  else Some (tt, set_lock (lock_destroy (lock l)) l).
Proof.
  unfold free, lock_release, ut_ad, ut_d, bind, ret, get, modify, abort,
    set_lock, set_readers.
  expose l. destruct UNIV_DEBUG; simpl; branch; congruence.
Qed.

(** X19: the life cycle of a lock in a debug build.  On an all-zero object
    [init], an [s_lock()] / [s_unlock()] pair by one thread and [free]
    return; the underlying lock is initialised, read-locked, read-unlocked
    and destroyed in that order, and the reader set that the first
    [s_lock()] allocated is deleted by [free] (the thread identifier is
    not 0).  [free] stops at an assertion when the S holder has not
    unlocked, and whenever [writer] or [recursive] is nonzero; [init] stops
    on such an object too. *)
Theorem X19_life_cycle_in_debug_build {T : Type} `{srw.ops T}
    (lock_init lock_destroy : T -> T) (id : os_thread_id_t)
    (l : sux_lock T) :
  (id <> 0 -> Free l -> waits l = 0 -> readers l = None ->
   (exists l' : sux_lock T,
       (init true lock_init ;; s_lock true id ;; s_unlock true id ;;
        free true lock_destroy) l = Some (tt, l') /\
       Free l' /\ readers l' = None /\
       lock l' =
         lock_destroy
           (srw.rd_unlock (snd (srw.rd_lock (lock_init (lock l)))))) /\
   (init true lock_init ;; s_lock true id ;; free true lock_destroy) l
     = None)
  /\
  (writer l <> 0 \/ recursive l <> 0 ->
   free true lock_destroy l = None /\ init true lock_init l = None).
Proof.
  split.
  - intros Hid (Hr & Hw) Hws Hrd.
    assert (Hinit : init true lock_init l =
                    Some (tt, set_lock (lock_init (lock l)) l)).
    { rewrite init_eq, Hr, Hw, Hws, Hrd. reflexivity. }
    assert (Hs : s_lock true id (set_lock (lock_init (lock l)) l) =
                 Some (tt, registered id
                             (acquired srw.rd_lock 0 0
                                (set_lock (lock_init (lock l)) l)))).
    { rewrite s_lock_eq. unfold s_lock_asserted, holds_s. simpl.
      apply Z.eqb_neq in Hid. rewrite Hw, Hr, Hrd, Hid. reflexivity. }
    split.
    + rewrite bind_eq, Hinit, bind_eq, Hs, bind_eq, s_unlock_eq.
      unfold registered, acquired; simpl. rewrite Hrd.
      assert (Hin : bool_decide (id ∈ ({[id]} ∪ ∅ : gset os_thread_id_t))
                    = true) by (apply bool_decide_eq_true; set_solver).
      rewrite Hin, free_eq. simpl.
      assert (He : bool_decide
                     ((({[id]} ∪ ∅) ∖ {[id]} : gset os_thread_id_t) = ∅)
                   = true) by (apply bool_decide_eq_true; set_solver).
      rewrite He. eexists. split; [reflexivity|]. repeat split.
    + rewrite bind_eq, Hinit, bind_eq, Hs, free_eq.
      unfold registered, acquired; simpl. rewrite Hrd.
      assert (He : bool_decide (({[id]} ∪ ∅ : gset os_thread_id_t) = ∅)
                   = false) by (apply bool_decide_eq_false; set_solver).
      rewrite He. reflexivity.
  - intros Hheld. rewrite free_eq, init_eq.
    destruct Hheld as [Hw | Hr].
    + apply to_bool_true in Hw. rewrite Hw. split; reflexivity.
    + apply to_bool_true in Hr. rewrite Hr, !andb_false_r.
      split; reflexivity.
Qed.

(** A recorded life cycle with thread 7 as the only reader. *)
Lemma X19_life_cycle_in_debug_build_witness :
  7 <> 0 /\ Free fresh /\ waits fresh = 0 /\ readers fresh = None /\
  exists l' : sux_lock srw.recorder,
    (init true (fun h => h) ;;
     s_lock (srw_ops := srw.recording (fun _ => true)) true 7 ;;
     s_unlock (srw_ops := srw.recording (fun _ => true)) true 7 ;;
     free true (fun h => h)) fresh = Some (tt, l') /\
    Free l' /\ readers l' = None /\
    lock l' = [srw.Rd_lock; srw.Rd_unlock].
Proof.
  assert (Hid : 7 <> 0) by discriminate.
  assert (HF : Free fresh) by (split; reflexivity).
  split; [exact Hid|].
  split; [exact HF|]. split; [reflexivity|]. split; [reflexivity|].
  exact (proj1 (proj1 (X19_life_cycle_in_debug_build
                         (H := srw.recording (fun _ => true))
                         (fun h => h) (fun h => h) 7 fresh)
                  Hid HF eq_refl eq_refl)).
Defined.

(** ** Non-blocking acquisition *)

(** X20: [x_lock_try()] on a lock that the caller does not own.  When the
    underlying [wr_lock_try] succeeds on an unowned lock, the call returns
    true, the caller is the owner at X depth 1, [waits] is unchanged, and
    [x_unlock()] then leaves the lock unowned after one [wr_unlock].  When
    it fails, the call returns false and [writer], [recursive] and [waits]
    are unchanged, so that the caller still does not hold the lock, and a
    debug build stops its [x_unlock()] unless the lock is one that was
    handed over for I/O. *)
Theorem X20_x_lock_try_then_x_unlock {T : Type} `{srw.ops T}
    (UNIV_DEBUG : bool) (id : os_thread_id_t) (l : sux_lock T) :
  id <> 0 ->
  (Free l -> fst (srw.wr_lock_try (lock l)) = true ->
   (exists l1 : sux_lock T,
       x_lock_try UNIV_DEBUG id l = Some (true, l1) /\
       writer l1 = id /\ recursive l1 = RECURSIVE_X /\
       waits l1 = waits l /\
       have_x UNIV_DEBUG id l1 = Some (true, l1)) /\
   (exists l' : sux_lock T,
       (x_lock_try UNIV_DEBUG id ;; x_unlock UNIV_DEBUG false id) l
         = Some (tt, l') /\
       Free l' /\
       lock l' = srw.wr_unlock (snd (srw.wr_lock_try (lock l)))))
  /\
  (writer l <> id -> fst (srw.wr_lock_try (lock l)) = false ->
   exists l1 : sux_lock T,
     x_lock_try UNIV_DEBUG id l = Some (false, l1) /\
     writer l1 = writer l /\ recursive l1 = recursive l /\
     waits l1 = waits l /\
     have_u_or_x UNIV_DEBUG id l1 = Some (false, l1) /\
     (writer l <> FOR_IO -> x_unlock true false id l1 = None)).
Proof.
  intros Hid. split.
  - intros HF Hgrant.
    assert (Hx : x_lock_try UNIV_DEBUG id l =
                 Some (true, set_writer id
                               (set_recursive RECURSIVE_X
                                  (set_lock (snd (srw.wr_lock_try (lock l)))
                                     l)))).
    { rewrite x_lock_try_eq, (Free_not_owner id l Hid HF), Hgrant.
      rewrite (unowned_Free l HF), andb_false_r. reflexivity. }
    split.
    + eexists. split; [exact Hx|]. repeat split.
      rewrite have_x_eq. simpl. rewrite Z.eqb_refl, andb_false_r.
      reflexivity.
    + unfold bind. rewrite Hx. unfold x_unlock.
      rewrite u_or_x_unlock_owner.
      * eexists. split; [reflexivity|]. simpl. repeat split.
      * split; [discriminate | reflexivity].
      * exact Hid.
      * reflexivity.
      * discriminate.
  - intros Hw Hfail. apply Z.eqb_neq in Hw as Hw'.
    rewrite x_lock_try_eq, Hw', Hfail.
    eexists. split; [reflexivity|]. simpl. repeat split.
    + rewrite have_u_or_x_eq. simpl.
      assert (Hne : (id =? writer l) = false)
        by (apply Z.eqb_neq; congruence).
      rewrite Hne. reflexivity.
    + intros Hio. unfold x_unlock. rewrite u_or_x_unlock_eq.
      unfold u_or_x_unlock_asserted. simpl writer.
      apply Z.eqb_neq in Hio. rewrite Hw', Hio. reflexivity.
Qed.

(** Thread 7 tries X on a new lock that is granted, then releases. *)
Lemma X20_x_lock_try_then_x_unlock_witness :
  7 <> 0 /\ Free fresh /\
  exists l' : sux_lock srw.recorder,
    (x_lock_try (srw_ops := srw.recording (fun _ => true)) true 7 ;;
     x_unlock (srw_ops := srw.recording (fun _ => true)) true false 7) fresh
      = Some (tt, l') /\
    Free l' /\ lock l' = [srw.Wr_lock_try; srw.Wr_unlock].
Proof.
  assert (Hid : 7 <> 0) by discriminate.
  assert (HF : Free fresh) by (split; reflexivity).
  split; [exact Hid|]. split; [exact HF|].
  exact (proj2 (proj1 (X20_x_lock_try_then_x_unlock
                         (H := srw.recording (fun _ => true))
                         true 7 fresh Hid) HF eq_refl)).
Defined.

(** ** The wait counter *)

(** X21: [waited()] after [reset_waited()] and [n] calls of [x_lock()] by
    one thread on an unowned lock is 0 when the underlying [wr_lock]
    returned true and 1 when it returned false, whatever [n] is: only the
    first acquisition reaches the underlying lock, so a chain of recursive
    acquisitions counts at most one wait. *)
Theorem X21_waited_after_reset_and_x_lock_chain {T : Type} `{srw.ops T}
    (UNIV_DEBUG : bool) (id : os_thread_id_t) (n : nat) (l : sux_lock T) :
  id <> 0 ->
  1 <= Z.of_nat n <= RECURSIVE_MAX ->
  Free l ->
  exists l' : sux_lock T,
    (reset_waited ;; times n (x_lock UNIV_DEBUG false id) ;; waited) l
      = Some ((if fst (srw.wr_lock (lock l)) then 0 else 1), l') /\
    waits l' = (if fst (srw.wr_lock (lock l)) then 0 else 1) /\
    writer l' = id /\ recursive l' = Z.of_nat n.
Proof.
  intros Hid Hn (Hr & Hw).
  assert (HF : Free (set_waits 0 l)) by (split; assumption).
  unfold bind at 1. unfold reset_waited, modify.
  unfold bind. rewrite (x_lock_chain _ _ _ _ Hid Hn HF).
  unfold waited, get, acquired. simpl.
  destruct (fst (srw.wr_lock (lock l)));
    eexists; (split; [reflexivity|]); repeat split.
Qed.

(** Thread 7 takes X three times over a lock that reports a wait. *)
Lemma X21_waited_after_reset_and_x_lock_chain_witness :
  7 <> 0 /\ 1 <= Z.of_nat 3 <= RECURSIVE_MAX /\
  Free (Sux_lock (T := srw.recorder) [] 0 0 41 None) /\
  exists l' : sux_lock srw.recorder,
    (reset_waited ;;
     times 3 (x_lock (srw_ops := srw.recording (fun _ => false))
                true false 7) ;;
     waited) (Sux_lock [] 0 0 41 None) = Some (1, l') /\
    waits l' = 1 /\ writer l' = 7 /\ recursive l' = Z.of_nat 3.
Proof.
  assert (Hid : 7 <> 0) by discriminate.
  assert (Hn : 1 <= Z.of_nat 3 <= RECURSIVE_MAX) by (split; discriminate).
  assert (HF : Free (Sux_lock (T := srw.recorder) [] 0 0 41 None))
    by (split; reflexivity).
  split; [exact Hid|]. split; [exact Hn|]. split; [exact HF|].
  exact (X21_waited_after_reset_and_x_lock_chain
           (H := srw.recording (fun _ => false)) true 7 3
           (Sux_lock [] 0 0 41 None) Hid Hn HF).
Defined.

(** ** have_any *)

Lemma have_any_eq {T : Type} (UNIV_DEBUG : bool) (id : os_thread_id_t)
    (l : sux_lock T) :
  have_any UNIV_DEBUG id l =
  if id =? writer l
  then if UNIV_DEBUG && negb (to_bool (recursive l)) then None
       else Some (true, l)
  else Some (holds_s id l, l).
Proof.
  unfold have_any. rewrite bind_eq, have_u_or_x_eq.
  destruct (id =? writer l).
  - destruct (UNIV_DEBUG && negb (to_bool (recursive l))); reflexivity.
  - apply have_s_eq.
Qed.

(** X22: in a debug build [have_any()] is true for a thread right after
    any acquisition of its own that returned: [s_lock], [u_lock],
    [x_lock()], [x_lock_recursive], [u_x_upgrade], [x_lock_upgraded], and
    the try variants ([u_lock_try] without [for_io]) when they return true.
    It is false for a thread that is neither [writer] nor in the reader
    set.  (The object satisfies the ownership invariant and the thread
    identifier is not 0.) *)
Theorem X22_have_any_after_an_acquisition {T : Type} `{srw.ops T}
    (e : entry_point) (id : os_thread_id_t) (l l' : sux_lock T)
    (r : option bool) :
  0 <= recursive l < 2 ^ 32 ->
  owned_iff_recursive l ->
  id <> 0 ->
  (call true e id l = Some (r, l') ->
   match e with
   | S_lock | U_lock | X_lock false | X_lock_recursive | U_x_upgrade
   | X_lock_upgraded => True
   | S_lock_try | U_lock_try false | X_lock_try => r = Some true
   | _ => False
   end ->
   have_any true id l' = Some (true, l'))
  /\
  (writer l <> id -> holds_s id l = false ->
   have_any true id l = Some (false, l)).
Proof.
  intros Hr Hinv Hid. split.
  - intros Hrun Hacq. rewrite have_any_eq.
    destruct e as [| |[|]| | | | |[|]| | |claim|claim|];
      try contradiction; try subst r.
    all: call_eq Hrun;
      unfold writer_recurse_asserted, unowned, u_x_upgrade_asserted,
        s_lock_asserted in Hrun;
      cases_in Hrun; try discriminate Hrun;
      injection Hrun; intros; try discriminate.
    all: repeat match goal with
                | Hobj : _ = ?x |- _ => is_var x; rewrite <- Hobj; clear Hobj
                end.
    all: unfold acquired, registered, holds_s; simpl.
    all: branch; try reflexivity.
    all: try (do 2 f_equal; apply bool_decide_eq_true; set_solver).
    all: exfalso; reflect_tests;
      unfold owned_iff_recursive in *; simpl in *;
      rewrite ?rec_X in *; unfold rec in *;
      rewrite ?land_RECURSIVE_MAX in *;
      unfold multiplier in *; depths; dlia.
  - intros Hw Hs. rewrite have_any_eq, Hs.
    assert (Hne : (id =? writer l) = false) by (apply Z.eqb_neq; congruence).
    rewrite Hne. reflexivity.
Qed.

(** Thread 7 holds U at depth 2 right after [u_lock()]. *)
Lemma X22_have_any_after_an_acquisition_witness :
  have_any true 7 (Sux_lock [srw.U_lock] 7 131072 0 None)
  = Some (true, Sux_lock [srw.U_lock] 7 131072 0 None).
Proof.
  refine (proj1 (X22_have_any_after_an_acquisition
                   (H := srw.recording (fun _ => true)) U_lock 7
                   (Sux_lock [srw.U_lock] 7 65536 0 None)
                   (Sux_lock [srw.U_lock] 7 131072 0 None) None _ _ _)
            eq_refl I).
  - split; [discriminate | reflexivity].
  - split; [intros _; discriminate | intros _; reflexivity].
  - discriminate.
Defined.
